(** * FactCheck-AI: the decision parser, the evidence parser, the chunker
      and the oracle-backed reasoning stages

    A shallow embedding of [src/pipeline.py], [src/reasoning.py] and
    [src/retrieval.py].

    - A Python [str] is a list of code points ([str]); literals of the
      source are written with [lit].
    - A Python [int] is a [Z]; a [float] that the code reads from decimal
      text is the rational number the text denotes ([Q]).
    - A call that can raise returns a [result]; the values of [exn] stand
      for instances of Python's [Exception] class, the ones an
      [except Exception] clause handles.
    - The language model behind [call_llm] and the index behind
      [search_index] are collaborators: they are arguments of the
      functions that call them. *)

From Stdlib Require Import List ZArith NArith QArith Lia Bool String Ascii.
From Stdlib Require Import Sorted.
Import ListNotations.

Close Scope Q_scope.
Local Open Scope list_scope.

(** ** Python strings *)

Module Py.

Definition char := N.
Definition str := list char.

(** An ASCII literal of the source, one code point per character. *)
Definition lit (s : string) : str :=
  map N_of_ascii (list_ascii_of_string s).

Definition NL : char := 10%N.
Definition dq : str := [34%N].
Definition sq : str := [39%N].

(** [str.isspace] of one character (CPython's [_PyUnicode_IsWhitespace]). *)
Definition is_space (c : char) : bool :=
  ((9 <=? c) && (c <=? 13) || (28 <=? c) && (c <=? 32)
   || (c =? 133) || (c =? 160) || (c =? 5760)
   || (8192 <=? c) && (c <=? 8202)
   || (c =? 8232) || (c =? 8233) || (c =? 8239) || (c =? 8287)
   || (c =? 12288))%N.

(** The decimal digits [0] to [9].  Python's [\d] and [float] accept the
    other decimal digits of Unicode as well; the model is exact on texts
    whose decimal digits are the ASCII ones. *)
Definition is_digit (c : char) : bool := ((48 <=? c) && (c <=? 57))%N.

Fixpoint str_eqb (a b : str) : bool :=
  match a, b with
  | [], [] => true
  | x :: a', y :: b' => (x =? y)%N && str_eqb a' b'
  | _, _ => false
  end.

(** [s.startswith(p)] *)
Fixpoint is_prefix (p s : str) : bool :=
  match p, s with
  | [], _ => true
  | x :: p', y :: s' => (x =? y)%N && is_prefix p' s'
  | _ :: _, [] => false
  end.

(** [p in s] *)
Fixpoint contains (p s : str) : bool :=
  is_prefix p s ||
  match s with
  | [] => false
  | _ :: s' => contains p s'
  end.

(** [s.split(sep)] for a separator that is not empty: [skip] counts the
    characters of a separator just matched that are still to be passed
    over, [cur] holds the current piece, last character first. *)
Fixpoint split_aux (sep : str) (skip : nat) (cur : str) (s : str) : list str :=
  match s with
  | [] => [rev cur]
  | c :: s' =>
      match skip with
      | S k => split_aux sep k cur s'
      | O =>
          if is_prefix sep s
          then rev cur :: split_aux sep (List.length sep - 1) [] s'
          else split_aux sep 0 (c :: cur) s'
      end
  end.

Definition split (sep s : str) : list str := split_aux sep 0 [] s.

(** [s.split(sep, 1)] when [sep in s]: the text before the first
    occurrence and the text after it. *)
Fixpoint split_once_aux (sep : str) (cur : str) (s : str) : option (str * str) :=
  if is_prefix sep s then Some (rev cur, skipn (List.length sep) s)
  else match s with
       | [] => None
       | c :: s' => split_once_aux sep (c :: cur) s'
       end.

Definition split_once (sep s : str) : option (str * str) :=
  split_once_aux sep [] s.

Fixpoint lstrip_by (f : char -> bool) (s : str) : str :=
  match s with
  | [] => []
  | c :: s' => if f c then lstrip_by f s' else s
  end.

Definition rstrip_by (f : char -> bool) (s : str) : str :=
  rev (lstrip_by f (rev s)).

Definition strip_by (f : char -> bool) (s : str) : str :=
  rstrip_by f (lstrip_by f s).

(** [s.strip()] *)
Definition strip (s : str) : str := strip_by is_space s.

(** [s.strip(chars)] *)
Definition strip_chars (chars : str) (s : str) : str :=
  strip_by (fun c => existsb (N.eqb c) chars) s.

(** [s.split()]: the maximal runs of characters that are not white space. *)
Fixpoint words_aux (cur : str) (s : str) : list str :=
  match s with
  | [] => match cur with [] => [] | _ => [rev cur] end
  | c :: s' =>
      if is_space c
      then match cur with
           | [] => words_aux [] s'
           | _ => rev cur :: words_aux [] s'
           end
      else words_aux (c :: cur) s'
  end.

Definition split_ws (s : str) : list str := words_aux [] s.

(** [sep.join(l)] *)
Fixpoint join (sep : str) (l : list str) : str :=
  match l with
  | [] => []
  | [w] => w
  | w :: l' => w ++ sep ++ join sep l'
  end.

(** [s.replace(old, new)] for [old] not empty. *)
Fixpoint replace_aux (old new : str) (skip : nat) (s : str) : str :=
  match s with
  | [] => []
  | c :: s' =>
      match skip with
      | S k => replace_aux old new k s'
      | O =>
          if is_prefix old s
          then new ++ replace_aux old new (List.length old - 1) s'
          else c :: replace_aux old new 0 s'
      end
  end.

Definition replace (old new s : str) : str := replace_aux old new 0 s.

(** [l[i:j]] for Python integers [i] and [j]: a negative index counts from
    the end, and both ends are brought into [0 .. len(l)]. *)
Definition slice_index (n i : Z) : Z :=
  let i' := if (i <? 0)%Z then (i + n)%Z else i in
  Z.max 0 (Z.min n i').

Definition slice {A : Type} (l : list A) (i j : Z) : list A :=
  let n := Z.of_nat (List.length l) in
  let a := slice_index n i in
  let b := slice_index n j in
  firstn (Z.to_nat (b - a)) (skipn (Z.to_nat a) l).

(** Lexicographic order of code points: [a < b] on [str]. *)
Fixpoint str_ltb (a b : str) : bool :=
  match a, b with
  | _, [] => false
  | [], _ :: _ => true
  | x :: a', y :: b' => (x <? y)%N || ((x =? y)%N && str_ltb a' b')
  end.

Fixpoint insert_sorted (x : str) (l : list str) : list str :=
  match l with
  | [] => [x]
  | y :: l' => if str_ltb y x then y :: insert_sorted x l' else x :: l
  end.

(** [sorted(l)] on a list of strings. *)
Definition sorted (l : list str) : list str :=
  fold_right insert_sorted [] l.

End Py.
Import Py.

(** ** Exceptions and results *)

(** Instances of [Exception]. *)
Inductive exn : Type :=
| NameError (name : string)
| ValueError (msg : string)
| RuntimeError (msg : string)
| OSError (msg : string)
| OtherException (cls : string).

Inductive result (A : Type) : Type :=
| Ok (a : A)
| Raise (e : exn).

Arguments Ok {A} a.
Arguments Raise {A} e.

Definition bind {A B : Type} (r : result A) (k : A -> result B) : result B :=
  match r with
  | Ok a => k a
  | Raise e => Raise e
  end.

Notation "x <- r ;; k" := (bind r (fun x => k))
  (at level 61, r at next level, right associativity).

(** [try: body  except Exception: handler] *)
Definition try_except {A : Type} (body : result A) (handler : exn -> result A) : result A :=
  match body with
  | Ok a => Ok a
  | Raise e => handler e
  end.

(** Reading a module-level name that is not a builtin: [NameError] when the
    module does not bind it. *)
Definition load_global (globals : list string) (name : string) : result unit :=
  if existsb (String.eqb name) globals then Ok tt else Raise (NameError name).

(** ** pipeline.py: [parse_decision] *)

(** The names [pipeline.py] binds at module level: its imports (lines 6 to
    15), [DATA_DIR] and its three functions.  Neither [re] nor [os] is
    among them. *)
Definition pipeline_globals : list string :=
  [ "build_vector_index";
    "extract_claims"; "classify_importance"; "generate_queries";
    "retrieve_evidence"; "temporal_analysis"; "causal_evaluation";
    "memory_state_propagation"; "calculate_contradiction_score";
    "final_decision_with_score"; "map_claim_dependencies";
    "cross_claim_validation"; "verify_counterfactual_expectations";
    "write_results"; "argparse";
    "DATA_DIR"; "load_text"; "parse_decision"; "run_pipeline" ]%string.

(** The module as it would be with [import re] and [import os] at its top. *)
Definition pipeline_globals_with_imports : list string :=
  ("re" :: "os" :: pipeline_globals)%string.

(** Lines 33 to 35. *)
Definition parse_prediction (decision_output : str) : Z :=
  if contains (lit "Prediction: 0") decision_output
     || contains (lit "Prediction:0") decision_output
  then 0%Z else 1%Z.

Fixpoint take_while (f : char -> bool) (s : str) : str :=
  match s with
  | [] => []
  | c :: s' => if f c then c :: take_while f s' else []
  end.

(** [\.\d+] at the start of [s]: the text matched. *)
Definition match_fraction (s : str) : option str :=
  match s with
  | [] => None
  | c :: t =>
      if (c =? 46)%N
      then match take_while is_digit t with
           | [] => None
           | ds => Some (c :: ds)
           end
      else None
  end.

(** [0?\.\d+] at the start of [s]: the optional [0] is tried first and
    given up when the rest does not match. *)
Definition match_small (s : str) : option str :=
  match s with
  | [] => None
  | c :: t =>
      if (c =? 48)%N
      then match match_fraction t with
           | Some g => Some (c :: g)
           | None => match_fraction s
           end
      else match_fraction s
  end.

(** The group [(0?\.\d+|1\.0)] at the start of [s]. *)
Definition match_score_group (s : str) : option str :=
  match match_small s with
  | Some g => Some g
  | None => if is_prefix (lit "1.0") s then Some (lit "1.0") else None
  end.

(** The pattern [Confidence Score:\s*(0?\.\d+|1\.0)] tried at the start
    of [s]; the result is group 1.  [\s*] takes the whole run of white
    space: giving part of it back would leave the group facing a white-space
    character, which it never matches ([match_score_group_space]). *)
Definition match_confidence_at (s : str) : option str :=
  if is_prefix (lit "Confidence Score:") s
  then match_score_group
         (lstrip_by is_space (skipn (List.length (lit "Confidence Score:")) s))
  else None.

(** [re.search(pattern, s)]: the leftmost position where the pattern
    matches; [group(1)] of the match, [None] when there is none. *)
Fixpoint re_search_confidence (s : str) : option str :=
  match match_confidence_at s with
  | Some g => Some g
  | None =>
      match s with
      | [] => None
      | _ :: s' => re_search_confidence s'
      end
  end.

Fixpoint digits_value (acc : Z) (ds : str) : Z :=
  match ds with
  | [] => acc
  | c :: t => digits_value (acc * 10 + (Z.of_N c - 48)) t
  end.

Fixpoint pow10 (n : nat) : positive :=
  match n with
  | O => 1%positive
  | S k => (10 * pow10 k)%positive
  end.

(** [float(g)] on plain decimal text: digits, then possibly a point and
    digits, with a digit somewhere.  [None] is [ValueError].  The other
    notations [float] accepts (signs, exponents, [inf]) do not occur in a
    group of the pattern ([float_of_group]).  The value is the decimal
    number the text writes; [float] gives the double nearest to it, which
    for long texts is another number ([0.99999999999999999999] reads as
    [1.0]), though never one outside the bounds 0 and 1 that the text is
    within. *)
Definition float_of_decimal (g : str) : option Q :=
  let ip := take_while is_digit g in
  match skipn (List.length ip) g with
  | [] =>
      match ip with
      | [] => None
      | _ => Some (Qmake (digits_value 0 ip) 1)
      end
  | c :: fp =>
      if (c =? 46)%N && forallb is_digit fp
         && negb (Nat.eqb (List.length ip + List.length fp) 0)
      then Some (Qmake (digits_value 0 (ip ++ fp)) (pow10 (List.length fp)))
      else None
  end.

(** Lines 38 to 45: [confidence_score] after the [try]; [None] when the
    pattern did not match or [float] raised. *)
Definition confidence_of_match (m : option str) : option Q :=
  match m with
  | Some g => float_of_decimal g
  | None => None
  end.

(** Lines 48 and 49. *)
Definition confidence_default (prediction : Z) : Q :=
  if (prediction =? 0)%Z then (2 # 10)%Q else (8 # 10)%Q.

Definition extract_confidence (decision_output : str) (prediction : Z) : Q :=
  match confidence_of_match (re_search_confidence decision_output) with
  | Some q => q
  | None => confidence_default prediction
  end.

(** Lines 51 to 55. *)
Definition parse_rationale (decision_output : str) : str :=
  if contains (lit "Rationale:") decision_output
  then
    let rationale := strip (last (split (lit "Rationale:") decision_output) []) in
    let rationale := strip (hd [] (split [NL] rationale)) in
    strip_chars sq (strip_chars dq rationale)
  else lit "No rationale provided".

(** [parse_decision] run in a module whose global names are [globals]:
    line 40 reads the global [re] before anything is returned. *)
Definition parse_decision_in (globals : list string) (decision_output : str)
  : result (Z * Q * str) :=
  let prediction := parse_prediction decision_output in
  _ <- load_global globals "re" ;;
  let confidence_score := extract_confidence decision_output prediction in
  let rationale := parse_rationale decision_output in
  Ok (prediction, confidence_score, rationale).

(** [parse_decision] of [pipeline.py] as it is. *)
Definition parse_decision (decision_output : str) : result (Z * Q * str) :=
  parse_decision_in pipeline_globals decision_output.

(** ** retrieval.py: [chunk_text] *)

(** The [while] loop of lines 46 to 49, run for at most [fuel] tests of its
    condition; [None] when the fuel runs out before the loop ends. *)
Fixpoint chunk_loop (fuel : nat) (words : list str) (chunk_size overlap : Z)
    (i : Z) (chunks : list str) : option (list str) :=
  match fuel with
  | O => None
  | S fuel' =>
      if (i <? Z.of_nat (List.length words))%Z
      then
        let chunk := slice words i (i + chunk_size) in
        chunk_loop fuel' words chunk_size overlap
          (i + (chunk_size - overlap))%Z
          (chunks ++ [join (lit " ") chunk])
      else Some chunks
  end.

Definition chunk_text (fuel : nat) (text : str) (chunk_size overlap : Z)
  : option (list str) :=
  chunk_loop fuel (split_ws text) chunk_size overlap 0 [].

(** ** reasoning.py *)

(** A passage returned by the index: a dictionary with the key [text]. *)
Record passage : Type := { text : str }.

(** A dictionary with string keys, in insertion order. *)
Definition dict (V : Type) : Type := list (str * V).

(** [d[k] = v] *)
Fixpoint dict_set {V : Type} (k : str) (v : V) (d : dict V) : dict V :=
  match d with
  | [] => [(k, v)]
  | (k', v') :: d' =>
      if str_eqb k' k then (k', v) :: d' else (k', v') :: dict_set k v d'
  end.

Fixpoint dict_get {V : Type} (k : str) (d : dict V) : option V :=
  match d with
  | [] => None
  | (k', v') :: d' => if str_eqb k' k then Some v' else dict_get k d'
  end.

Definition evidence_dict : Type := dict (list passage).

Section Reasoning.

(** The index and the two collaborators: [search_index] of retrieval.py
    and [call_llm] of llm_hf.py (prompt and [max_new_tokens]). *)
Variable Index : Type.
Variable search_index : Index -> str -> Z -> result (list passage).
Variable call_llm : str -> Z -> result str.

(** One turn of the loop of [retrieve_evidence] (lines 106 to 117). *)
Definition retrieve_evidence_line (index : Index) (top_k : Z)
    (evidence : evidence_dict) (line : str) : result evidence_dict :=
  if contains (lit ":") line && negb (Nat.eqb (List.length (strip line)) 0)
  then
    try_except
      (match split_once (lit ":") line with
       | None => Raise (ValueError "not enough values to unpack")
       | Some (cid, query) =>
           let cid := strip cid in
           let query := strip query in
           if negb (Nat.eqb (List.length query) 0) && (2 <? List.length query)%nat
           then
             results <- search_index index query top_k ;;
             Ok (dict_set cid results evidence)
           else Ok evidence
       end)
      (fun _ => Ok evidence)
  else Ok evidence.

Fixpoint retrieve_evidence_loop (index : Index) (top_k : Z)
    (evidence : evidence_dict) (lines : list str) : result evidence_dict :=
  match lines with
  | [] => Ok evidence
  | line :: rest =>
      evidence' <- retrieve_evidence_line index top_k evidence line ;;
      retrieve_evidence_loop index top_k evidence' rest
  end.

(** Lines 101 to 119. *)
Definition retrieve_evidence (query_text : str) (index : Index) (top_k : Z)
  : result evidence_dict :=
  retrieve_evidence_loop index top_k [] (split [NL] query_text).

(** Lines 125 to 129 and 279 to 283. *)
Definition format_evidence (evidence : evidence_dict) : str :=
  List.concat
    (map (fun item : str * list passage =>
            [NL] ++ fst item ++ lit " Evidence:" ++ [NL]
            ++ List.concat
                 (map (fun p => lit "- " ++ firstn 400 (text p) ++ lit "..." ++ [NL])
                      (firstn 5 (snd item))))
         evidence).

(** The prompt of [extract_claims] (reasoning.py, lines 14 to 31). *)
Definition extract_claims_prompt (backstory_text : str) : str :=
  join [NL]
    [ lit "Extract all explicit and implicit claims from the backstory.";
      [];
      lit "Organize into:";
      lit "1. Early-life events";
      lit "2. Formative experiences";
      lit "3. Beliefs and values";
      lit "4. Fears and psychological traits";
      lit "5. Ambitions and goals";
      lit "6. Assumptions about how the world works";
      [];
      lit "Rules:";
      lit "- Numbered bullet points";
      lit "- Each must be a factual claim";
      lit "- Do not invent";
      [];
      lit "Backstory:";
      backstory_text;
      [] ].

(** The prompt of [classify_importance] (reasoning.py, lines 38 to 55). *)
Definition classify_importance_prompt (claims_text : str) : str :=
  join [NL]
    [ lit "Classify each claim as MAJOR or MINOR.";
      [];
      lit "MAJOR:";
      lit "- Shapes identity, values, motivations";
      lit "- Affects causal chains";
      lit "- Influences multiple future events";
      [];
      lit "MINOR:";
      lit "- Descriptive, stylistic, incidental";
      [];
      lit "Output:";
      lit "Claim ID";
      lit "Importance: MAJOR/MINOR";
      lit "Reason: 1 line";
      [];
      lit "Claims:";
      claims_text;
      [] ].

(** The prompt of [map_claim_dependencies] (reasoning.py, lines 65 to 79). *)
Definition map_claim_dependencies_prompt (claims_text : str) : str :=
  join [NL]
    [ lit "You are mapping logical dependencies between character backstory claims.";
      [];
      lit "For each claim, identify if it depends on another claim (a " ++ dq ++ lit "Prerequisite" ++ dq ++ lit ").";
      lit "A dependency exists if:";
      lit "- Claim B is a motivation/belief caused by event Claim A.";
      lit "- Claim B is a goal intended to resolve trauma in Claim A.";
      lit "- Claim B is an assumption based on experience in Claim A.";
      [];
      lit "Output format:";
      lit "Claim ID -> Prerequisite ID (Reason)";
      lit "...";
      [];
      lit "Claims:";
      claims_text;
      [] ].

(** The prompt of [generate_queries] (reasoning.py, lines 86 to 96). *)
Definition generate_queries_prompt (claims_text : str) : str :=
  join [NL]
    [ lit "For each claim, generate a short search query";
      lit "to retrieve relevant evidence from the novel.";
      [];
      lit "Output:";
      lit "Claim 1: <query>";
      lit "Claim 2: <query>";
      lit "...";
      [];
      lit "Claims:";
      claims_text;
      [] ].

(** The prompt of [temporal_analysis] (reasoning.py, lines 131 to 162). *)
Definition temporal_analysis_prompt (claims_text formatted_evidence : str) : str :=
  join [NL]
    [ lit "Perform temporal constraint mapping.";
      [];
      lit "For each claim, analyze:";
      lit "- EARLY: introduction/background";
      lit "- MID: turning points/conflicts";
      lit "- LATE: final outcomes";
      [];
      lit "For each phase:";
      lit "Status: Supports / Contradicts / Constrains";
      lit "Explanation: 1 line";
      [];
      lit "Output format:";
      lit "Claim ID";
      [];
      lit "EARLY:";
      lit "Status:";
      lit "Explanation:";
      [];
      lit "MID:";
      lit "Status:";
      lit "Explanation:";
      [];
      lit "LATE:";
      lit "Status:";
      lit "Explanation:";
      [];
      lit "Claims:";
      claims_text;
      [];
      lit "Evidence:";
      formatted_evidence;
      [] ].

(** The prompt of [causal_evaluation] (reasoning.py, lines 169 to 193). *)
Definition causal_evaluation_prompt (claims_text importance_text temporal_text : str) : str :=
  join [NL]
    [ lit "Evaluate narrative consistency with importance weighting.";
      [];
      lit "For each claim:";
      lit "- Use IMPORTANCE (MAJOR / MINOR)";
      lit "- Use EARLY/MID/LATE analysis";
      lit "- Classify as:";
      lit "  " ++ [8226%N] ++ lit " FATAL CONTRADICTION (only for MAJOR claims)";
      lit "  " ++ [8226%N] ++ lit " SOFT CONTRADICTION";
      lit "  " ++ [8226%N] ++ lit " CONSISTENT";
      [];
      lit "Output:";
      lit "Claim ID";
      lit "Importance:";
      lit "Result:";
      lit "Explanation: 1" ++ [8211%N] ++ lit "2 lines";
      [];
      lit "Claims:";
      claims_text;
      [];
      lit "Importance:";
      importance_text;
      [];
      lit "Temporal Analysis:";
      temporal_text;
      [] ].

(** The prompt of [memory_state_propagation] (reasoning.py, lines 203 to 234). *)
Definition memory_state_propagation_prompt (claims_text temporal_text importance_text : str) : str :=
  join [NL]
    [ lit "You are tracking a character's mental state evolution across a narrative.";
      [];
      lit "For each MAJOR claim:";
      lit "1. Identify the character's belief/trait in EARLY, MID, and LATE phases";
      lit "2. Determine if state transitions are:";
      lit "   - GRADUAL: Plausible evolution with triggering events";
      lit "   - SUDDEN: Unexplained rapid shift";
      lit "   - IMPOSSIBLE: Direct reversal without causal justification";
      [];
      lit "3. For SUDDEN or IMPOSSIBLE transitions, identify:";
      lit "   - What trigger event would be needed";
      lit "   - Whether such an event exists in the evidence";
      [];
      lit "Output format:";
      lit "Claim ID";
      lit "Importance: (from importance analysis)";
      lit "EARLY State: <belief/trait value>";
      lit "MID State: <belief/trait value>  ";
      lit "LATE State: <belief/trait value>";
      lit "Transition Type: GRADUAL / SUDDEN / IMPOSSIBLE";
      lit "Trigger Events: <list or NONE FOUND>";
      lit "Analysis: 1-2 lines on causal plausibility";
      [];
      lit "Claims:";
      claims_text;
      [];
      lit "Temporal Analysis:";
      temporal_text;
      [];
      lit "Importance:";
      importance_text;
      [] ].

(** The prompt of [cross_claim_validation] (reasoning.py, lines 243 to 270). *)
Definition cross_claim_validation_prompt (claims_text causal_analysis dependencies : str) : str :=
  join [NL]
    [ lit "You are performing cross-claim dependency validation for narrative consistency.";
      [];
      lit "Given:";
      lit "1. Backstory Claims";
      lit "2. Causal Consistency Analysis";
      lit "3. Logical Dependencies (Map of which claims depend on which prerequisites)";
      [];
      lit "Your Task:";
      lit "Identify " ++ dq ++ lit "Causally Orphaned" ++ dq ++ lit " claims. A claim is orphaned if:";
      lit "- It is a dependent claim (e.g., a goal or belief).";
      lit "- Its prerequisite " ++ dq ++ lit "Root Claim" ++ dq ++ lit " (the event it's based on) has a FATAL CONTRADICTION.";
      [];
      lit "If a root claim is false, the character's motivation for the dependent claim no longer exists in the narrative context.";
      [];
      lit "Output format:";
      lit "Claim ID";
      lit "Status: CAUSALLY ORPHANED / VALID";
      lit "Explanation: 1-2 lines on why the contradiction in the root claim invalidates this goal/belief.";
      [];
      lit "Claims:";
      claims_text;
      [];
      lit "Causal Analysis:";
      causal_analysis;
      [];
      lit "Dependencies:";
      dependencies;
      [] ].

(** The prompt of [verify_counterfactual_expectations] (reasoning.py, lines 285 to 315). *)
Definition verify_counterfactual_expectations_prompt (claims_text importance_text formatted_evidence : str) : str :=
  join [NL]
    [ lit "Perform Counterfactual Reasoning (Simulation).";
      [];
      lit "For each MAJOR claim, generate an " ++ dq ++ lit "If-Then" ++ dq ++ lit " expectation and verify it.";
      [];
      lit "Logic:";
      lit "1. Hypothesis: " ++ dq ++ lit "If [Claim] is true..." ++ dq;
      lit "2. Expectation: " ++ dq ++ lit "...then the character MUST [Reaction/Action] or MUST NOT [Reaction/Action] in relevant situations." ++ dq;
      lit "3. Verification: Does the evidence show the OPPOSITE behavior?";
      [];
      lit "Example:";
      lit "Claim: " ++ dq ++ lit "Pacifist" ++ dq;
      lit "Expectation: Must not fight back in ambush.";
      lit "Evidence: " ++ dq ++ lit "He punched the guard." ++ dq;
      lit "Result: VIOLATED";
      [];
      lit "Output format:";
      lit "Claim ID";
      lit "Hypothesis:";
      lit "Expectation:";
      lit "Verification Result: SATISFIED / VIOLATED / UNKNOWN";
      lit "Explanation: 1 line";
      [];
      lit "Claims:";
      claims_text;
      [];
      lit "Importance:";
      importance_text;
      [];
      lit "Evidence:";
      formatted_evidence;
      [] ].

(** The prompt of [calculate_contradiction_score] (reasoning.py, lines 330 to 375). *)
Definition calculate_contradiction_score_prompt (weighted_analysis memory_states dependency_analysis counterfactual_analysis : str) : str :=
  join [NL]
    [ lit "You are calculating a weighted contradiction score for narrative consistency.";
      [];
      lit "Scoring Rules:";
      lit "- MAJOR claim with FATAL CONTRADICTION: -1.0 points";
      lit "- MAJOR claim with SOFT CONTRADICTION: -0.3 points";
      lit "- MINOR claim contradiction (any): -0.2 points";
      lit "- IMPOSSIBLE state transition (from memory analysis): -0.5 points";
      lit "- CAUSALLY ORPHANED claim (from dependency analysis): -0.4 points";
      lit "- VIOLATED EXPECTATION (from counterfactuals): -0.5 points";
      lit "- CONSISTENT claims: 0.0 points";
      [];
      lit "Calculate:";
      lit "1. Total penalty from all claims";
      lit "2. Total possible penalty (# of MAJOR claims " ++ [215%N] ++ lit " 1.0)";
      lit "3. Final Score = 1.0 - (Total Penalty / Total Possible)";
      [];
      lit "Also consider:";
      lit "- Memory state transitions (IMPOSSIBLE transitions increase penalty)";
      lit "- Dependency violations (CAUSALLY ORPHANED claims increase penalty)";
      lit "- Counterfactual violations (VIOLATED expectations increase penalty)";
      lit "- Temporal consistency across EARLY/MID/LATE";
      [];
      lit "Output format:";
      lit "Contradiction Score: <0.0 to 1.0>";
      lit "Breakdown:";
      lit "- MAJOR FATAL: <count> claims (-<penalty>)";
      lit "- MAJOR SOFT: <count> claims (-<penalty>)";
      lit "- MINOR issues: <count> claims (-<penalty>)";
      lit "- Memory violations: <count> (-<penalty>)";
      lit "- Dependency violations: <count> (-<penalty>)";
      lit "- Counterfactual violations: <count> (-<penalty>)";
      lit "Total Penalty: <value>";
      lit "Final Score: <0.0-1.0>";
      [];
      lit "Weighted Analysis:";
      weighted_analysis;
      [];
      lit "Memory States:";
      memory_states;
      [];
      lit "Dependency Analysis:";
      dependency_analysis;
      [];
      lit "Counterfactual Analysis:";
      counterfactual_analysis;
      [] ].

(** The prompt of [final_decision_with_score] (reasoning.py, lines 388 to 418). *)
Definition final_decision_with_score_prompt (weighted_analysis memory_states score_analysis dependency_analysis counterfactual_analysis : str) : str :=
  join [NL]
    [ lit "Make the final consistency judgment using the contradiction score.";
      [];
      lit "Decision Rules:";
      lit "- Contradiction Score < 0.4 " ++ [8594%N] ++ lit " Output 0 (Contradict)";
      lit "- Contradiction Score >= 0.4 " ++ [8594%N] ++ lit " Output 1 (Consistent)";
      [];
      lit "Rationale Requirements:";
      lit "- Must cite the specific logical failure (e.g. " ++ dq ++ lit "Root Claim X contradicted" ++ dq ++ lit ").";
      lit "- MUST include a SHORT VERBATIM QUOTE from the novel that proves the contradiction.";
      lit "- Keep it under 3 lines for CSV formatting.";
      [];
      lit "Output format:";
      lit "Prediction: <0 or 1>";
      lit "Confidence Score: <extract from score analysis>";
      lit "Rationale: <Specific failure> + " ++ dq ++ lit "Direct Quote from text" ++ dq;
      [];
      lit "Weighted Analysis:";
      weighted_analysis;
      [];
      lit "Memory States:";
      memory_states;
      [];
      lit "Score Analysis:";
      score_analysis;
      [];
      lit "Dependency Analysis:";
      dependency_analysis;
      [];
      lit "Counterfactual Analysis:";
      counterfactual_analysis;
      [] ].


Definition extract_claims (backstory_text : str) : result str :=
  call_llm (extract_claims_prompt backstory_text) 800.

Definition classify_importance (claims_text : str) : result str :=
  call_llm (classify_importance_prompt claims_text) 1000.

Definition map_claim_dependencies (claims_text : str) : result str :=
  call_llm (map_claim_dependencies_prompt claims_text) 1000.

Definition generate_queries (claims_text : str) : result str :=
  call_llm (generate_queries_prompt claims_text) 800.

Definition temporal_analysis (claims_text : str) (evidence : evidence_dict)
  : result str :=
  call_llm (temporal_analysis_prompt claims_text (format_evidence evidence)) 3000.

Definition causal_evaluation (claims_text importance_text temporal_text : str)
  : result str :=
  call_llm (causal_evaluation_prompt claims_text importance_text temporal_text) 3000.

Definition memory_state_propagation (claims_text temporal_text importance_text : str)
  : result str :=
  call_llm (memory_state_propagation_prompt claims_text temporal_text importance_text) 3000.

(** Lines 239 to 271. *)
Definition cross_claim_validation (claims_text causal_analysis dependencies : str)
  : result str :=
  call_llm (cross_claim_validation_prompt claims_text causal_analysis dependencies) 2000.

Definition verify_counterfactual_expectations (claims_text : str)
    (evidence : evidence_dict) (importance_text : str) : result str :=
  call_llm
    (verify_counterfactual_expectations_prompt claims_text importance_text
       (format_evidence evidence)) 2500.

(** Lines 320 to 376. *)
Definition calculate_contradiction_score
    (weighted_analysis memory_states dependency_analysis counterfactual_analysis : str)
  : result str :=
  call_llm
    (calculate_contradiction_score_prompt weighted_analysis memory_states
       dependency_analysis counterfactual_analysis) 1000.

(** Lines 380 to 419. *)
Definition final_decision_with_score
    (weighted_analysis memory_states score_analysis dependency_analysis
       counterfactual_analysis : str) : result str :=
  call_llm
    (final_decision_with_score_prompt weighted_analysis memory_states score_analysis
       dependency_analysis counterfactual_analysis) 600.

End Reasoning.

(** ** pipeline.py: [run_pipeline] *)

Definition DATA_DIR : str := lit "data".

(** [os.path.join(a, b)] on a POSIX system. *)
Definition path_join (a b : str) : str :=
  if is_prefix (lit "/") b then b
  else match rev a with
       | [] => b
       | c :: _ => if (c =? 47)%N then a ++ b else a ++ lit "/" ++ b
       end.

(** A row appended to [results] (lines 172 and 175). *)
Inductive row : Type :=
| Row3 (story_id : str) (prediction : Z) (rationale : str)
| Row4 (story_id : str) (prediction : Z) (confidence_score : Q) (rationale : str).

Definition row_story (r : row) : str :=
  match r with
  | Row3 story_id _ _ => story_id
  | Row4 story_id _ _ _ => story_id
  end.

(** How a run ends when no exception leaves it: the early return of line
    69, the call of [write_results] of line 187, or nothing to write. *)
Inductive outcome : Type :=
| NoStoryFiles
| Written (rows : list row) (include_confidence : bool)
| NoResults.

Section Pipeline.

Variable Index : Type.
Variable search_index : Index -> str -> Z -> result (list passage).
Variable call_llm : str -> Z -> result str.
Variable build_vector_index : str -> result Index.
(** The file system: [os.listdir], [os.path.exists] and reading a file. *)
Variable listdir : str -> result (list str).
Variable path_exists : str -> bool.
Variable load_text : str -> result str.

(** The names the module binds. *)
Variable globals : list string.

(** The body of the [try] of lines 87 to 175. *)
Definition process_story (submission_mode : bool)
    (story_id novel_path backstory_path : str) : result row :=
  novel_text <- load_text novel_path ;;
  backstory_text <- load_text backstory_path ;;
  index <- build_vector_index novel_text ;;
  claims <- extract_claims call_llm backstory_text ;;
  importance <- classify_importance call_llm claims ;;
  dependencies <- map_claim_dependencies call_llm claims ;;
  queries <- generate_queries call_llm claims ;;
  evidence <- retrieve_evidence Index search_index queries index 5 ;;
  temporal <- temporal_analysis call_llm claims evidence ;;
  weighted <- causal_evaluation call_llm claims importance temporal ;;
  memory_states <- memory_state_propagation call_llm claims temporal importance ;;
  dependency_analysis <- cross_claim_validation call_llm claims weighted dependencies ;;
  counterfactuals <-
    verify_counterfactual_expectations call_llm claims evidence importance ;;
  score_analysis <-
    calculate_contradiction_score call_llm weighted memory_states
      dependency_analysis counterfactuals ;;
  decision <-
    final_decision_with_score call_llm weighted memory_states score_analysis
      dependency_analysis counterfactuals ;;
  parsed <- parse_decision_in globals decision ;;
  let '(prediction, confidence_score, rationale) := parsed in
  Ok (if submission_mode
      then Row3 story_id prediction rationale
      else Row4 story_id prediction confidence_score rationale).

Definition story_id_of (fname : str) : str :=
  replace (lit ".txt") (lit "") (replace (lit "story_") (lit "") fname).

Definition novel_path_of (story_id : str) : str :=
  path_join DATA_DIR (lit "story_" ++ story_id ++ lit ".txt").

Definition backstory_path_of (story_id : str) : str :=
  path_join DATA_DIR (lit "backstory_" ++ story_id ++ lit ".txt").

(** The [for] loop of lines 78 to 181. *)
Fixpoint story_loop (submission_mode : bool) (story_files : list str)
    (results : list row) : result (list row) :=
  match story_files with
  | [] => Ok results
  | fname :: rest =>
      let story_id := story_id_of fname in
      _ <- load_global globals "os" ;;
      let novel_path := novel_path_of story_id in
      let backstory_path := backstory_path_of story_id in
      if negb (path_exists backstory_path)
      then story_loop submission_mode rest results
      else
        match process_story submission_mode story_id novel_path backstory_path with
        | Ok r => story_loop submission_mode rest (results ++ [r])
        | Raise _ => story_loop submission_mode rest results
        end
  end.

(** The rows of the stories that have a backstory and whose processing
    raised nothing, in the order of [story_files]. *)
Definition story_rows (submission_mode : bool) (story_files : list str) : list row :=
  flat_map
    (fun fname =>
       let story_id := story_id_of fname in
       if path_exists (backstory_path_of story_id)
       then match process_story submission_mode story_id
                    (novel_path_of story_id) (backstory_path_of story_id) with
            | Ok r => [r]
            | Raise _ => []
            end
       else [])
    story_files.

(** Lines 60 to 190. *)
Definition run_pipeline_in (submission_mode : bool) : result outcome :=
  _ <- load_global globals "os" ;;
  names <- listdir DATA_DIR ;;
  let story_files := sorted (filter (is_prefix (lit "story_")) names) in
  match story_files with
  | [] => Ok NoStoryFiles
  | _ =>
      results <- story_loop submission_mode story_files [] ;;
      match results with
      | [] => Ok NoResults
      | _ => Ok (Written results (negb submission_mode))
      end
  end.

End Pipeline.

(** [run_pipeline] of [pipeline.py] as it is. *)
Definition run_pipeline (Index : Type)
    (search_index : Index -> str -> Z -> result (list passage))
    (call_llm : str -> Z -> result str)
    (build_vector_index : str -> result Index)
    (listdir : str -> result (list str))
    (path_exists : str -> bool)
    (load_text : str -> result str)
    (submission_mode : bool) : result outcome :=
  run_pipeline_in Index search_index call_llm build_vector_index listdir
    path_exists load_text pipeline_globals submission_mode.

(** ** Readings of the oracle's answers

    The code hands the answers of the scoring and validation stages to the
    next prompt and never reads them.  The two readers below follow the
    output formats that the prompts of lines 352 to 362 and 257 to 260 ask
    for; they serve to state what those answers report. *)

Fixpoint after_label (label s : str) : option str :=
  if is_prefix label s then Some (skipn (List.length label) s)
  else match s with
       | [] => None
       | _ :: s' => after_label label s'
       end.

Definition is_number_char (c : char) : bool :=
  (is_digit c || (c =? 46) || (c =? 45))%N.

(** A signed decimal at the start of [s], after white space. *)
Definition read_number (s : str) : option Q :=
  match take_while is_number_char (lstrip_by is_space s) with
  | [] => None
  | c :: t =>
      if (c =? 45)%N
      then option_map Qopp (float_of_decimal t)
      else float_of_decimal (c :: t)
  end.

(** The value on the line [Final Score: <0.0-1.0>] of a score analysis. *)
Definition reported_final_score (score_analysis : str) : option Q :=
  match after_label (lit "Final Score:") score_analysis with
  | Some rest => read_number rest
  | None => None
  end.

(** Whether a dependency analysis gives the claim the status
    [CAUSALLY ORPHANED]. *)
Definition reported_orphaned (claim_id dependency_analysis : str) : bool :=
  contains (claim_id ++ [NL] ++ lit "Status: CAUSALLY ORPHANED") dependency_analysis.

(** Whether a dependency listing ([Claim ID -> Prerequisite ID (Reason)],
    line 74) has an edge that leaves the claim. *)
Definition has_dependency_edge (claim_id dependencies : str) : bool :=
  contains (claim_id ++ lit " ->") dependencies.

(** The texts the group of the pattern can match. *)
Inductive score_text : str -> Prop :=
| score_zero_point (ds : str) :
    ds <> [] -> forallb is_digit ds = true -> score_text (48%N :: 46%N :: ds)
| score_point (ds : str) :
    ds <> [] -> forallb is_digit ds = true -> score_text (46%N :: ds)
| score_one : score_text (lit "1.0").

(** An entry that a line with a colon, a query of more than two characters
    and a search that returned can write. *)
Definition written_by (Index : Type)
    (search_index : Index -> str -> Z -> result (list passage))
    (index : Index) (top_k : Z) (line key : str) (v : list passage) : Prop :=
  exists cid query,
    split_once (lit ":") line = Some (cid, query)
    /\ key = strip cid
    /\ (2 < List.length (strip query))%nat
    /\ search_index index (strip query) top_k = Ok v.

(** A word: at least one character and no white space. *)
Definition is_word (w : str) : Prop :=
  w <> [] /\ forallb (fun c => negb (is_space c)) w = true.

(** A chunk cut at position [j]: the words [words[j:j+chunk_size]] joined
    by single spaces. *)
Definition chunk_at (words : list str) (chunk_size : Z) (chunk : str) : Prop :=
  exists j, (0 <= j)%Z /\ chunk = join (lit " ") (slice words j (j + chunk_size)).

(** An oracle with fixed answers: one for the scoring prompt, one for every
    other prompt. *)
Definition scripted_oracle (score_reply other_reply : str)
  : str -> Z -> result str :=
  fun prompt _ =>
    if is_prefix (lit "You are calculating a weighted contradiction score") prompt
    then Ok score_reply
    else Ok other_reply.

(** ** retrieval.py: [build_vector_index] and [search_index] *)

(** What [build_vector_index] returns: the fallback dictionary
    [{"chunks": chunks, "fallback": True}] or a Pathway index. *)
Inductive vector_index (Handle : Type) : Type :=
| FallbackIndex (chunks : list str)
| PathwayIndex (handle : Handle).

Arguments FallbackIndex {Handle} chunks.
Arguments PathwayIndex {Handle} handle.

(** [set(l)]: the distinct strings of [l]. *)
Fixpoint distinct (l : list str) : list str :=
  match l with
  | [] => []
  | x :: l' => if existsb (str_eqb x) l' then distinct l' else x :: distinct l'
  end.

(** Line 117: the number of query words that occur in the chunk. *)
Definition keyword_score (query_words : list str) (chunk_lower : str) : nat :=
  List.length (filter (fun word => contains word chunk_lower) query_words).

(** An entry of [scores]: the tuple [(score, i, chunk)]. *)
Definition scored : Type := (nat * nat * str)%type.

Definition scored_score (e : scored) : nat := fst (fst e).
Definition scored_position (e : scored) : nat := snd (fst e).
Definition scored_chunk (e : scored) : str := snd e.

(** [a < b] on the tuples. *)
Definition scored_ltb (a b : scored) : bool :=
  (scored_score a <? scored_score b)%nat
  || ((scored_score a =? scored_score b)%nat
      && ((scored_position a <? scored_position b)%nat
          || ((scored_position a =? scored_position b)%nat
              && str_ltb (scored_chunk a) (scored_chunk b)))).

Fixpoint insert_desc (x : scored) (l : list scored) : list scored :=
  match l with
  | [] => [x]
  | y :: l' => if scored_ltb x y then y :: insert_desc x l' else x :: l
  end.

(** [scores.sort(reverse=True)] *)
Definition sort_desc (l : list scored) : list scored :=
  fold_right insert_desc [] l.

Section Retrieval.

(** [str.lower] of the standard library. *)
Variable lower : str -> str.
(** A Pathway index, how it is built (lines 72 to 85) and how it is
    queried (lines 126 to 128). *)
Variable Handle : Type.
Variable pathway_build : list str -> result Handle.
Variable pathway_query : Handle -> str -> Z -> result (list passage).
(** The two flags set when the module is imported (lines 9 to 22). *)
Variables PATHWAY_AVAILABLE EMBEDDINGS_AVAILABLE : bool.

(** Lines 115 to 119: the chunks with a positive score, with their
    positions, from position [i] on. *)
Fixpoint score_chunks (query_words : list str) (i : nat) (chunks : list str)
  : list scored :=
  match chunks with
  | [] => []
  | chunk :: rest =>
      let score := keyword_score query_words (lower chunk) in
      if (0 <? score)%nat
      then (score, i, chunk) :: score_chunks query_words (S i) rest
      else score_chunks query_words (S i) rest
  end.

(** Lines 111 to 122: the keyword search of the fallback mode. *)
Definition search_fallback (chunks : list str) (query : str) (k : Z)
  : list passage :=
  let query_words := distinct (split_ws (lower query)) in
  let scores := sort_desc (score_chunks query_words 0 chunks) in
  map (fun e => {| text := scored_chunk e |}) (slice scores 0 k).

(** Lines 96 to 131. *)
Definition search_index (index : vector_index Handle) (query : str) (k : Z)
  : result (list passage) :=
  match index with
  | FallbackIndex chunks => Ok (search_fallback chunks query k)
  | PathwayIndex handle =>
      try_except (pathway_query handle query k) (fun _ => Ok [])
  end.

(** Lines 53 to 93; [None] when [chunk_text] does not end.  The loop of
    [chunk_text] is given one test of its condition more than the text has
    words. *)
Definition build_vector_index (novel_text : str)
  : option (result (vector_index Handle)) :=
  match chunk_text (S (List.length (split_ws novel_text))) novel_text 1000 200 with
  | None => None
  | Some chunks =>
      Some
        (if negb PATHWAY_AVAILABLE || negb EMBEDDINGS_AVAILABLE
         then Ok (FallbackIndex chunks)
         else
           try_except
             (handle <- pathway_build chunks ;; Ok (PathwayIndex handle))
             (fun _ => Ok (FallbackIndex chunks)))
  end.

End Retrieval.

(** ** llm_hf.py: [call_llm] *)

(** The body of a response with status 200, as lines 57 to 60 read it. *)
Inductive hf_json : Type :=
| GeneratedText (generated_text : str)
| OtherData (as_str : str).

(** What one [requests.post] does: it answers (the status, the reading of
    the body, which can raise), times out, or raises something else. *)
Inductive post_outcome : Type :=
| Response (status_code : Z) (json : result hf_json)
| Timeout
| PostRaised (e : exn).

Definition max_retries : Z := 3.

(** The [while] loop of lines 52 to 83, run for at most [fuel] tests of its
    condition.  [network n] is what the [n]-th post does; the state is the
    number of posts made and the seconds slept. *)
Fixpoint call_llm_loop (fuel : nat) (network : nat -> post_outcome)
    (retry_count : Z) (posts : nat) (slept : Z)
  : option (result str * nat * Z) :=
  match fuel with
  | O => None
  | S fuel' =>
      if (retry_count <? max_retries)%Z
      then
        let on_exception (e : exn) :=
          if (retry_count <? max_retries - 1)%Z
          then call_llm_loop fuel' network (retry_count + 1)%Z (S posts) (slept + 5)%Z
          else Some (Raise e, S posts, slept) in
        match network posts with
        | Response status_code json =>
            if (status_code =? 200)%Z
            then match json with
                 | Ok (GeneratedText generated_text) =>
                     Some (Ok (strip generated_text), S posts, slept)
                 | Ok (OtherData as_str) => Some (Ok as_str, S posts, slept)
                 | Raise e => on_exception e
                 end
            else if (status_code =? 503)%Z
            then call_llm_loop fuel' network (retry_count + 1)%Z (S posts)
                   (slept + 20)%Z
            else on_exception (RuntimeError "HF API Error")
        | Timeout =>
            call_llm_loop fuel' network (retry_count + 1)%Z (S posts) (slept + 5)%Z
        | PostRaised e => on_exception e
        end
      else Some (Raise (RuntimeError "Max retries exceeded"), posts, slept)
  end.

(** Lines 23 to 83.  The network answers according to the payload, that
    is the prompt and [max_new_tokens]. *)
Definition call_llm (HF_API_TOKEN : option str)
    (network : str -> Z -> nat -> post_outcome) (fuel : nat)
    (prompt : str) (max_new_tokens : Z) : option (result str * nat * Z) :=
  match HF_API_TOKEN with
  | None | Some [] => Some (Raise (ValueError "HF_API_TOKEN not set"), O, 0%Z)
  | Some (_ :: _) => call_llm_loop fuel (network prompt max_new_tokens) 0 0 0
  end.

(** ** llm.py: [LLMClient] *)

Record LLMClient : Type :=
  { provider : str; api_key : option str; model : option str }.

(** Lines 17 to 43. *)
Definition LLMClient_call (self : LLMClient) (prompt : str) : str :=
  if str_eqb (provider self) (lit "none")
  then lit "LLM integration not configured."
  else if str_eqb (provider self) (lit "openai")
  then lit "Sample OpenAI Response based on: " ++ slice prompt 0 50 ++ lit "..."
  else if str_eqb (provider self) (lit "anthropic")
  then lit "Sample Anthropic Response based on: " ++ slice prompt 0 50 ++ lit "..."
  else lit "Provider " ++ provider self ++ lit " not implemented.".

(** Lines 49 to 53; a message is a dictionary, and [KeyError] is raised
    when the last one has no [content]. *)
Definition LLMClient_chat (self : LLMClient) (messages : list (dict str))
  : result str :=
  match messages with
  | [] => Ok (LLMClient_call self [])
  | first :: others =>
      match dict_get (lit "content") (last messages first) with
      | Some content => Ok (LLMClient_call self content)
      | None => Raise (OtherException "KeyError")
      end
  end.

(** The score of an entry is the number of query words in its chunk. *)
Definition scored_by (lower : str -> str) (query_words : list str) (e : scored)
  : Prop :=
  scored_score e = keyword_score query_words (lower (scored_chunk e))
  /\ (0 < scored_score e)%nat.

(** The chunk that [chunk_text] cuts at word [j]. *)
Definition chunk_from (words : list str) (chunk_size : Z) (j : Z) : str :=
  join (lit " ") (slice words j (j + chunk_size)).

(** The chunks cut at the words [0], [step], [2 * step], ... below [n]. *)
Definition chunks_by_step (words : list str) (chunk_size overlap : Z) : list str :=
  let step := (chunk_size - overlap)%Z in
  let n := Z.of_nat (List.length words) in
  map (fun k => chunk_from words chunk_size (Z.of_nat k * step))
    (seq 0 (Z.to_nat ((n + step - 1) / step))).

(** The text [call_llm] returns for a post that succeeded: status 200 and
    a body that could be read. *)
Definition answer_of (o : post_outcome) : option str :=
  match o with
  | Response status_code (Ok json) =>
      if (status_code =? 200)%Z
      then Some match json with
                | GeneratedText generated_text => strip generated_text
                | OtherData as_str => as_str
                end
      else None
  | _ => None
  end.

(** ** csv_writer.py: [append_result] *)

(** The frame of line 41: the column names and the rows. *)
Record data_frame : Type := {
  columns : list str;
  frame_rows : list (str * Z * str)
}.

(** The file at the output path: its text, or [None] when
    [os.path.isfile] finds no file there. *)
Definition csv_file : Type := option str.

(** Lines 29 to 49.  [to_csv header df] is the text that pandas' [to_csv]
    writes for the frame [df] with [index=False], with the header line or
    without it; with [mode='a'] that text is added at the end of the text
    the file has, whatever that text ends with.  The writes are taken to
    succeed. *)
Definition append_result (to_csv : bool -> data_frame -> str) (file : csv_file)
    (story_id : str) (prediction : Z) (rationale : str) : csv_file :=
  let file_exists := match file with Some _ => true | None => false end in
  let df := {| columns := [lit "story_id"; lit "prediction"; lit "rationale"];
               frame_rows := [(story_id, prediction, rationale)] |} in
  if file_exists
  then match file with
       | Some content => Some (content ++ to_csv false df)
       | None => None
       end
  else Some (to_csv true df).

(** One call of [append_result] for each result, in order. *)
Definition append_results (to_csv : bool -> data_frame -> str) (file : csv_file)
    (results : list (str * Z * str)) : csv_file :=
  fold_left
    (fun f r => append_result to_csv f (fst (fst r)) (snd (fst r)) (snd r))
    results file.

(** The frame [append_result] builds for one result. *)
Definition result_frame (r : str * Z * str) : data_frame :=
  {| columns := [lit "story_id"; lit "prediction"; lit "rationale"];
     frame_rows := [(fst (fst r), snd (fst r), snd r)] |}.

(** * Properties *)

(** ** Strings *)

Example split_rationale_label :
  split (lit "Rationale:") (lit "aRationale:bRationale:c") = [lit "a"; lit "b"; lit "c"].
Proof. reflexivity. Qed.

Example split_overlapping_separator :
  split (lit "aa") (lit "aaa") = [lit ""; lit "a"].
Proof. reflexivity. Qed.

Example split_ws_runs :
  split_ws (lit "  a bc   d ") = [lit "a"; lit "bc"; lit "d"].
Proof. reflexivity. Qed.

Example slice_negative_stop :
  slice [1; 2; 3]%Z 0 (-1) = [1; 2]%Z.
Proof. reflexivity. Qed.

Example replace_story_prefix :
  replace (lit ".txt") (lit "") (replace (lit "story_") (lit "") (lit "story_12.txt")) = lit "12".
Proof. reflexivity. Qed.

Lemma is_prefix_app (p s : str) : is_prefix p (p ++ s) = true.
Proof.
  induction p as [|c p IH]; simpl; [reflexivity|].
  now rewrite N.eqb_refl, IH.
Qed.

Lemma is_prefix_app_l (p a b : str) :
  is_prefix p a = true -> is_prefix p (a ++ b) = true.
Proof.
  revert a; induction p as [|c p IH]; intros [|x a]; simpl; try easy.
  intros H; apply andb_true_iff in H as [H1 H2].
  now rewrite H1, IH.
Qed.

Lemma contains_app_l (p a b : str) :
  contains p a = true -> contains p (a ++ b) = true.
Proof.
  induction a as [|x a IH]; simpl.
  - rewrite orb_false_r. destruct p; [destruct b; reflexivity | discriminate].
  - intros H; apply orb_true_iff in H as [H|H].
    + pose proof (is_prefix_app_l p (x :: a) b H) as H'.
      simpl app in H'. now rewrite H'.
    + rewrite (IH H). apply orb_true_r.
Qed.

Lemma contains_app_r (p a b : str) :
  contains p b = true -> contains p (a ++ b) = true.
Proof.
  intros H; induction a as [|x a IH]; simpl; [exact H|].
  rewrite IH. apply orb_true_r.
Qed.

Lemma contains_prefix (p s : str) : contains p (p ++ s) = true.
Proof.
  destruct (p ++ s) eqn:E; simpl.
  - destruct p; [reflexivity | discriminate].
  - rewrite <- E, is_prefix_app. reflexivity.
Qed.

Lemma contains_middle (p a b : str) : contains p (a ++ p ++ b) = true.
Proof. apply contains_app_r, contains_prefix. Qed.

Lemma lstrip_by_Forall (P : char -> Prop) f (s : str) :
  Forall P s -> Forall P (lstrip_by f s).
Proof.
  induction 1 as [|c s Hc Hs IH]; simpl; [constructor|].
  destruct (f c); [exact IH | now constructor].
Qed.

Lemma strip_by_Forall (P : char -> Prop) f (s : str) :
  Forall P s -> Forall P (strip_by f s).
Proof.
  intros H. unfold strip_by, rstrip_by.
  apply Forall_rev, lstrip_by_Forall, Forall_rev, lstrip_by_Forall, H.
Qed.

Lemma lstrip_by_head f (s : str) c t :
  lstrip_by f s = c :: t -> f c = false.
Proof.
  induction s as [|x s IH]; simpl; [discriminate|].
  destruct (f x) eqn:E; [exact IH|].
  intros [= -> _]. exact E.
Qed.

Lemma lstrip_by_suffix f (s : str) :
  exists a, s = a ++ lstrip_by f s /\ forallb f a = true.
Proof.
  induction s as [|x s [a [IH1 IH2]]]; simpl.
  - now exists [].
  - destruct (f x) eqn:E.
    + exists (x :: a); simpl. rewrite E, IH2. split; [now f_equal | reflexivity].
    + now exists [].
Qed.

(** Stripping leaves no strippable character at either end. *)
Lemma strip_by_ends f (s : str) :
  (forall c t, strip_by f s = c :: t -> f c = false)
  /\ (forall c t, strip_by f s = t ++ [c] -> f c = false).
Proof.
  unfold strip_by, rstrip_by. split; intros c t H.
  - destruct (lstrip_by_suffix f (rev (lstrip_by f s))) as [a [Ha Hf]].
    remember (lstrip_by f (rev (lstrip_by f s))) as r eqn:Er.
    apply (f_equal (@rev char)) in Ha. rewrite rev_involutive, rev_app_distr in Ha.
    rewrite H in Ha. simpl in Ha.
    destruct (lstrip_by f s) as [|y u] eqn:El; [discriminate|].
    injection Ha as -> _. eapply lstrip_by_head; eassumption.
  - apply (f_equal (@rev char)) in H.
    rewrite rev_involutive, rev_app_distr in H. simpl in H.
    eapply lstrip_by_head; eassumption.
Qed.

Lemma split_aux_hd (cur s : str) :
  hd [] (split_aux [NL] 0 cur s)
  = rev cur ++ take_while (fun c => negb (c =? NL)%N) s.
Proof.
  revert cur; induction s as [|c s IH]; intros cur.
  - simpl. now rewrite app_nil_r.
  - cbn [split_aux take_while is_prefix NL List.length Nat.sub].
    rewrite andb_true_r, (N.eqb_sym NL c).
    destruct (c =? NL)%N eqn:E; cbn [negb hd].
    + now rewrite app_nil_r.
    + rewrite IH. cbn [rev]. now rewrite <- app_assoc.
Qed.

Lemma take_while_Forall f (s : str) :
  Forall (fun c => f c = true) (take_while f s).
Proof.
  induction s as [|c s IH]; simpl; [constructor|].
  destruct (f c) eqn:E; now constructor.
Qed.

(** The first piece of [s.split("\n")] holds no newline. *)
Lemma first_line_no_newline (s : str) :
  Forall (fun c => c <> NL) (hd [] (split [NL] s)).
Proof.
  unfold split. rewrite split_aux_hd. simpl.
  eapply Forall_impl; [|apply take_while_Forall].
  intros c H Hc. subst c. discriminate.
Qed.

(** ** The confidence pattern and [float] *)

Lemma pow10_spec (n : nat) : Z.pos (pow10 n) = (10 ^ Z.of_nat n)%Z.
Proof.
  induction n as [|n IH].
  - reflexivity.
  - rewrite Nat2Z.inj_succ, Z.pow_succ_r by lia.
    cbn [pow10]. rewrite Pos2Z.inj_mul, IH. reflexivity.
Qed.

Lemma digits_value_acc (acc : Z) (ds : str) :
  digits_value acc ds
  = (acc * 10 ^ Z.of_nat (List.length ds) + digits_value 0 ds)%Z.
Proof.
  revert acc; induction ds as [|c t IH]; intros acc.
  - simpl. lia.
  - cbn [digits_value List.length].
    rewrite (IH (acc * 10 + (Z.of_N c - 48))%Z), (IH (0 * 10 + (Z.of_N c - 48))%Z).
    rewrite Nat2Z.inj_succ, Z.pow_succ_r by lia. ring.
Qed.

Lemma is_digit_value (c : char) :
  is_digit c = true -> (0 <= Z.of_N c - 48 <= 9)%Z.
Proof.
  unfold is_digit. intros H. apply andb_true_iff in H as [H1 H2].
  apply N.leb_le in H1, H2. lia.
Qed.

Lemma digits_value_bounds (ds : str) :
  forallb is_digit ds = true ->
  (0 <= digits_value 0 ds < 10 ^ Z.of_nat (List.length ds))%Z.
Proof.
  induction ds as [|c t IH]; intros H.
  - simpl. lia.
  - cbn [forallb] in H. apply andb_true_iff in H as [Hc Ht].
    specialize (IH Ht). apply is_digit_value in Hc.
    cbn [digits_value List.length]. rewrite digits_value_acc.
    rewrite Nat2Z.inj_succ, Z.pow_succ_r by lia. nia.
Qed.

Lemma take_while_forallb f (s : str) : forallb f (take_while f s) = true.
Proof.
  induction s as [|c s IH]; simpl; [reflexivity|].
  destruct (f c) eqn:E; simpl; [now rewrite E | reflexivity].
Qed.

Lemma take_while_all f (s : str) :
  forallb f s = true -> take_while f s = s.
Proof.
  induction s as [|c s IH]; simpl; [reflexivity|].
  intros H; apply andb_true_iff in H as [H1 H2]. now rewrite H1, IH.
Qed.

Lemma match_fraction_shape (s g : str) :
  match_fraction s = Some g ->
  exists ds, g = 46%N :: ds /\ ds <> [] /\ forallb is_digit ds = true.
Proof.
  destruct s as [|c t]; [discriminate|]. cbn [match_fraction].
  destruct (c =? 46)%N eqn:E; [|discriminate].
  apply N.eqb_eq in E; subst c.
  pose proof (take_while_forallb is_digit t) as Hd.
  destruct (take_while is_digit t) as [|d ds]; [discriminate|].
  intros [= <-]. exists (d :: ds). repeat split; [discriminate | exact Hd].
Qed.

Lemma match_score_group_shape (s g : str) :
  match_score_group s = Some g -> score_text g.
Proof.
  unfold match_score_group.
  destruct (match_small s) as [g'|] eqn:E.
  - intros [= <-]. destruct s as [|c t]; [discriminate|].
    cbn [match_small] in E.
    destruct (c =? 48)%N eqn:Ec.
    + apply N.eqb_eq in Ec; subst c.
      destruct (match_fraction t) as [f|] eqn:Ef.
      * injection E as <-.
        apply match_fraction_shape in Ef as (ds & -> & Hne & Hd).
        now constructor.
      * apply match_fraction_shape in E as (ds & -> & Hne & Hd).
        now constructor.
    + apply match_fraction_shape in E as (ds & -> & Hne & Hd).
      now constructor.
  - destruct (is_prefix (lit "1.0") s); [|discriminate].
    intros [= <-]. constructor.
Qed.

(** The group never starts with white space, so [\s*] loses nothing by
    taking the whole run. *)
Lemma match_score_group_space (c : char) (t : str) :
  is_space c = true -> match_score_group (c :: t) = None.
Proof.
  intros H. unfold match_score_group, match_small, match_fraction.
  destruct (c =? 48)%N eqn:E0; [apply N.eqb_eq in E0; subst c; discriminate|].
  destruct (c =? 46)%N eqn:E1; [apply N.eqb_eq in E1; subst c; discriminate|].
  cbn [lit list_ascii_of_string map is_prefix].
  destruct (N_of_ascii "1" =? c)%N eqn:E2; [|reflexivity].
  apply N.eqb_eq in E2; subst c; discriminate.
Qed.

Lemma re_search_confidence_shape (s g : str) :
  re_search_confidence s = Some g -> score_text g.
Proof.
  induction s as [|c s IH]; cbn [re_search_confidence]; unfold match_confidence_at.
  - simpl. discriminate.
  - destruct (is_prefix (lit "Confidence Score:") (c :: s)).
    + destruct (match_score_group _) as [g'|] eqn:E.
      * intros [= <-]. eapply match_score_group_shape; eassumption.
      * exact IH.
    + exact IH.
Qed.

(** [float] never raises on a group of the pattern, and the value read
    lies between 0 and 1. *)
Lemma float_of_group (g : str) :
  score_text g ->
  exists q, float_of_decimal g = Some q /\ (0 <= q)%Q /\ (q <= 1)%Q.
Proof.
  intros [ds Hne Hd | ds Hne Hd | ].
  - unfold float_of_decimal.
    change (take_while is_digit (48%N :: 46%N :: ds)) with [48%N].
    cbn [List.length skipn]. rewrite N.eqb_refl, Hd.
    destruct ds as [|d ds']; [congruence|].
    remember (d :: ds') as ds0.
    replace (negb (Nat.eqb (1 + List.length ds0) 0)) with true by reflexivity.
    cbn [andb]. eexists; split; [reflexivity|].
    change ([48%N] ++ ds0) with (48%N :: ds0). cbn [digits_value].
    change (0 * 10 + (Z.of_N 48 - 48))%Z with 0%Z.
    pose proof (digits_value_bounds ds0 Hd) as Hb.
    unfold Qle; cbn [Qnum Qden]. rewrite pow10_spec. lia.
  - unfold float_of_decimal.
    change (take_while is_digit (46%N :: ds)) with (@nil char).
    cbn [List.length skipn]. rewrite N.eqb_refl, Hd.
    destruct ds as [|d ds']; [congruence|].
    remember (d :: ds') as ds0.
    replace (negb (Nat.eqb (0 + List.length ds0) 0)) with true
      by (subst ds0; reflexivity).
    cbn [andb]. eexists; split; [reflexivity|].
    cbn [app]. pose proof (digits_value_bounds ds0 Hd) as Hb.
    unfold Qle; cbn [Qnum Qden]. rewrite pow10_spec. lia.
  - eexists; split; [reflexivity|]. split; unfold Qle; simpl; lia.
Qed.

Lemma confidence_default_range (prediction : Z) :
  (0 <= confidence_default prediction)%Q /\ (confidence_default prediction <= 1)%Q.
Proof.
  unfold confidence_default.
  destruct (prediction =? 0)%Z; split; unfold Qle; simpl; lia.
Qed.

(** When the pattern matches nowhere, the default of lines 48 and 49 is
    taken. *)
Lemma extract_confidence_default (s : str) (prediction : Z) :
  re_search_confidence s = None ->
  extract_confidence s prediction
  = if (prediction =? 0)%Z then (2 # 10)%Q else (8 # 10)%Q.
Proof. intros H. unfold extract_confidence. now rewrite H. Qed.

(** When the pattern matches, the value of its group is taken. *)
Lemma extract_confidence_match (s g : str) (prediction : Z) :
  re_search_confidence s = Some g ->
  exists q, float_of_decimal g = Some q /\ extract_confidence s prediction = q.
Proof.
  intros H. unfold extract_confidence. rewrite H. cbn [confidence_of_match].
  destruct (float_of_group g (re_search_confidence_shape _ _ H)) as (q & Hq & _).
  exists q. now rewrite Hq.
Qed.

Lemma extract_confidence_range (s : str) (prediction : Z) :
  (0 <= extract_confidence s prediction)%Q
  /\ (extract_confidence s prediction <= 1)%Q.
Proof.
  unfold extract_confidence.
  destruct (re_search_confidence s) as [g|] eqn:E; cbn [confidence_of_match].
  - destruct (float_of_group g (re_search_confidence_shape _ _ E)) as (q & Hq & H).
    rewrite Hq. exact H.
  - apply confidence_default_range.
Qed.

(** ** [parse_decision] *)

Lemma parse_prediction_zero (s : str) :
  parse_prediction s = 0%Z
  <-> contains (lit "Prediction: 0") s = true
      \/ contains (lit "Prediction:0") s = true.
Proof.
  unfold parse_prediction.
  destruct (contains (lit "Prediction: 0") s), (contains (lit "Prediction:0") s);
    simpl; intuition congruence.
Qed.

Lemma parse_prediction_one (s : str) :
  parse_prediction s = 1%Z
  <-> contains (lit "Prediction: 0") s = false
      /\ contains (lit "Prediction:0") s = false.
Proof.
  unfold parse_prediction.
  destruct (contains (lit "Prediction: 0") s), (contains (lit "Prediction:0") s);
    simpl; intuition congruence.
Qed.

Lemma parse_prediction_binary (s : str) :
  parse_prediction s = 0%Z \/ parse_prediction s = 1%Z.
Proof. unfold parse_prediction. destruct (_ || _); auto. Qed.

Lemma parse_rationale_absent (s : str) :
  contains (lit "Rationale:") s = false ->
  parse_rationale s = lit "No rationale provided".
Proof. intros H. unfold parse_rationale. now rewrite H. Qed.

(** Lines 51 to 55 give one line: no newline is left in the rationale. *)
Lemma parse_rationale_single_line (s : str) :
  Forall (fun c => c <> NL) (parse_rationale s).
Proof.
  unfold parse_rationale. destruct (contains (lit "Rationale:") s).
  - unfold strip_chars, strip.
    do 3 apply strip_by_Forall. apply first_line_no_newline.
  - repeat constructor; discriminate.
Qed.

(** A rationale taken from the text is the first line of what follows the
    last label, without the white space around it, then without its outer
    double quotes, then without its outer single quotes. *)
Lemma parse_rationale_present (s : str) :
  contains (lit "Rationale:") s = true ->
  parse_rationale s
  = strip_chars sq
      (strip_chars dq
         (strip (take_while (fun c => negb (c =? NL)%N)
                   (strip (last (split (lit "Rationale:") s) []))))).
Proof.
  intros H. unfold parse_rationale. rewrite H.
  unfold split at 1. now rewrite split_aux_hd.
Qed.

(** The rationale neither starts nor ends with a single quote. *)
Lemma parse_rationale_no_outer_single_quote (s : str) :
  (forall t, parse_rationale s <> 39%N :: t)
  /\ (forall t, parse_rationale s <> t ++ [39%N]).
Proof.
  unfold parse_rationale. destruct (contains (lit "Rationale:") s).
  - unfold strip_chars at 1.
    match goal with |- context [strip_by ?f ?x] =>
      destruct (strip_by_ends f x) as [H1 H2] end.
    split; intros t E.
    + apply H1 in E. discriminate.
    + apply H2 in E. discriminate.
  - split; intros t E.
    + discriminate.
    + apply (f_equal (@rev char)) in E. rewrite rev_app_distr in E.
      discriminate.
Qed.

(** What [parse_decision] returns once the module binds [re]. *)
Lemma parse_decision_in_with_re (globals : list string) (s : str) :
  existsb (String.eqb "re") globals = true ->
  parse_decision_in globals s
  = Ok (parse_prediction s, extract_confidence s (parse_prediction s),
        parse_rationale s).
Proof.
  intros H. unfold parse_decision_in, load_global. now rewrite H.
Qed.

Lemma parse_decision_in_without_re (globals : list string) (s : str) :
  existsb (String.eqb "re") globals = false ->
  parse_decision_in globals s = Raise (NameError "re").
Proof.
  intros H. unfold parse_decision_in, load_global. now rewrite H.
Qed.

Example parse_decision_with_imports_typical :
  parse_decision_in pipeline_globals_with_imports
    (lit "Prediction: 0" ++ [NL] ++ lit "Confidence Score: 0.25" ++ [NL]
     ++ lit "Rationale: " ++ dq ++ lit "Root claim 2 contradicted" ++ dq ++ [NL]
     ++ lit "second line")
  = Ok (0%Z, (25 # 100)%Q, lit "Root claim 2 contradicted").
Proof. reflexivity. Qed.

Example parse_decision_with_imports_empty :
  parse_decision_in pipeline_globals_with_imports []
  = Ok (1%Z, (8 # 10)%Q, lit "No rationale provided").
Proof. reflexivity. Qed.

Example confidence_one_point_zero :
  extract_confidence (lit "Confidence Score: 1.05") 1 = (10 # 10)%Q.
Proof. reflexivity. Qed.

Example confidence_out_of_pattern :
  extract_confidence (lit "Confidence Score: 1.7") 0 = (2 # 10)%Q.
Proof. reflexivity. Qed.

Example confidence_second_occurrence :
  extract_confidence (lit "Confidence Score: high. Confidence Score:   .5") 1
  = (5 # 10)%Q.
Proof. reflexivity. Qed.

(** Double quotes are removed before single quotes, so double quotes
    inside single quotes stay. *)
Example rationale_nested_quotes :
  parse_rationale (lit "Rationale: '" ++ dq ++ lit "x" ++ dq ++ lit "'")
  = dq ++ lit "x" ++ dq.
Proof. reflexivity. Qed.

Example rationale_leading_blank_line :
  parse_rationale (lit "Rationale:" ++ [NL] ++ lit "first" ++ [NL] ++ lit "second")
  = lit "first".
Proof. reflexivity. Qed.

(** ** [retrieve_evidence] *)

Lemma str_eqb_eq (a b : str) : str_eqb a b = true <-> a = b.
Proof.
  revert b; induction a as [|x a IH]; intros [|y b]; simpl; try easy.
  rewrite andb_true_iff, N.eqb_eq, IH. split.
  - now intros [-> ->].
  - now intros [= -> ->].
Qed.

Lemma dict_get_set {V : Type} (key k : str) (v x : V) (d : dict V) :
  dict_get key (dict_set k v d) = Some x ->
  (key = k /\ x = v) \/ dict_get key d = Some x.
Proof.
  induction d as [|[k' v'] d IH]; cbn [dict_set dict_get].
  - destruct (str_eqb k key) eqn:E; [|discriminate].
    apply str_eqb_eq in E. intros [= <-]. now left.
  - destruct (str_eqb k' k) eqn:Ek; cbn [dict_get].
    + destruct (str_eqb k' key) eqn:E; [|now right].
      apply str_eqb_eq in Ek, E. intros [= <-]. left. split; congruence.
    + destruct (str_eqb k' key); [now right | exact IH].
Qed.

Section RetrieveEvidence.

Variable Index : Type.
Variable search_index : Index -> str -> Z -> result (list passage).
Variable index : Index.
Variable top_k : Z.

(** One turn of the loop never raises: it leaves the mapping as it is or
    writes one entry. *)
Lemma retrieve_evidence_line_ok (evidence : evidence_dict) (line : str) :
  retrieve_evidence_line Index search_index index top_k evidence line = Ok evidence
  \/ exists key v,
       written_by Index search_index index top_k line key v
       /\ retrieve_evidence_line Index search_index index top_k evidence line = Ok (dict_set key v evidence).
Proof.
  unfold retrieve_evidence_line.
  destruct (contains (lit ":") line && _); [|now left].
  destruct (split_once (lit ":") line) as [[cid query]|] eqn:Es; [|now left].
  destruct (negb (Nat.eqb (List.length (strip query)) 0)
            && (2 <? List.length (strip query))%nat) eqn:Eq; [|now left].
  apply andb_true_iff in Eq as [_ Hlen]. apply Nat.ltb_lt in Hlen.
  destruct (search_index index (strip query) top_k) as [results|e] eqn:Er;
    cbn [bind try_except]; [|now left].
  right. exists (strip cid), results. split; [|reflexivity].
  exists cid, query. auto.
Qed.

(** A line without a colon is skipped. *)
Lemma retrieve_evidence_line_no_colon (evidence : evidence_dict) (line : str) :
  contains (lit ":") line = false -> retrieve_evidence_line Index search_index index top_k evidence line = Ok evidence.
Proof.
  intros H. unfold retrieve_evidence_line. now rewrite H.
Qed.

(** A line whose query has at most two characters is skipped. *)
Lemma retrieve_evidence_line_short (evidence : evidence_dict) (line cid query : str) :
  split_once (lit ":") line = Some (cid, query) ->
  (List.length (strip query) <= 2)%nat ->
  retrieve_evidence_line Index search_index index top_k evidence line = Ok evidence.
Proof.
  intros Hs Hl. unfold retrieve_evidence_line. rewrite Hs.
  apply Nat.ltb_ge in Hl. rewrite Hl, andb_false_r.
  now destruct (_ && _).
Qed.

(** A line whose search raises is skipped. *)
Lemma retrieve_evidence_line_raises (evidence : evidence_dict)
    (line cid query : str) (e : exn) :
  split_once (lit ":") line = Some (cid, query) ->
  search_index index (strip query) top_k = Raise e ->
  retrieve_evidence_line Index search_index index top_k evidence line = Ok evidence.
Proof.
  intros Hs Hr. unfold retrieve_evidence_line. rewrite Hs, Hr.
  destruct (_ && _); [|reflexivity].
  now destruct (_ && _).
Qed.

Lemma retrieve_evidence_loop_ok (lines : list str) (evidence : evidence_dict)
    (P : str -> list passage -> Prop) :
  (forall key v, dict_get key evidence = Some v -> P key v) ->
  (forall line key v,
     In line lines -> written_by Index search_index index top_k line key v -> P key v) ->
  exists evidence',
    retrieve_evidence_loop Index search_index index top_k evidence lines
    = Ok evidence'
    /\ forall key v, dict_get key evidence' = Some v -> P key v.
Proof.
  revert evidence; induction lines as [|line rest IH]; intros evidence Hev Hw.
  - exists evidence. now split.
  - cbn [retrieve_evidence_loop].
    destruct (retrieve_evidence_line_ok evidence line)
      as [E | (key0 & v0 & Hw0 & E)]; rewrite E; cbn [bind].
    + apply IH; [exact Hev|]. intros l key v Hin. apply Hw. now right.
    + apply IH.
      * intros key v Hg. apply dict_get_set in Hg as [[-> ->]|Hg].
        -- apply (Hw line); [now left | exact Hw0].
        -- now apply Hev.
      * intros l key v Hin. apply Hw. now right.
Qed.

End RetrieveEvidence.

(** ** [chunk_text] *)

Lemma words_aux_word (w cur rest : str) :
  forallb (fun c => negb (is_space c)) w = true ->
  words_aux cur (w ++ rest) = words_aux (rev w ++ cur) rest.
Proof.
  revert cur; induction w as [|c w IH]; intros cur H; [reflexivity|].
  cbn [forallb] in H. apply andb_true_iff in H as [Hc Hw].
  apply negb_true_iff in Hc. cbn [app words_aux]. rewrite Hc, (IH _ Hw).
  cbn [rev]. now rewrite <- app_assoc.
Qed.

(** Splitting a chunk gives back the words it was joined from. *)
Lemma split_ws_join (ws : list str) :
  Forall is_word ws -> split_ws (join (lit " ") ws) = ws.
Proof.
  unfold split_ws. induction 1 as [|w ws [Hne Hw] Hws IH]; [reflexivity|].
  assert (Hr : rev w <> []).
  { intros E. apply Hne. apply (f_equal (@rev char)) in E.
    now rewrite rev_involutive in E. }
  destruct ws as [|w' ws'].
  - cbn [join]. pose proof (words_aux_word w [] [] Hw) as H1.
    rewrite !app_nil_r in H1. rewrite H1. cbn [words_aux].
    destruct (rev w) eqn:E; [congruence|]. now rewrite <- E, rev_involutive.
  - change (join (lit " ") (w :: w' :: ws'))
      with (w ++ 32%N :: join (lit " ") (w' :: ws')).
    rewrite words_aux_word by exact Hw. rewrite app_nil_r.
    cbn [words_aux]. change (is_space 32%N) with true. cbv iota.
    destruct (rev w) eqn:E; [congruence|].
    rewrite <- E, rev_involutive. now rewrite IH.
Qed.

Lemma words_aux_words (s cur : str) :
  forallb (fun c => negb (is_space c)) cur = true ->
  Forall is_word (words_aux cur s).
Proof.
  revert cur; induction s as [|c s IH]; intros cur Hcur; cbn [words_aux].
  - destruct cur as [|x cur]; constructor; [|constructor].
    split.
    + intros E. apply (f_equal (@List.length char)) in E.
      rewrite length_rev in E. discriminate.
    + rewrite forallb_forall in *. intros y Hy. apply Hcur.
      now apply in_rev.
  - destruct (is_space c) eqn:Ec.
    + destruct cur as [|x cur]; [now apply IH|].
      constructor; [|now apply IH].
      split.
      * intros E. apply (f_equal (@List.length char)) in E.
        rewrite length_rev in E. discriminate.
      * rewrite forallb_forall in *. intros y Hy. apply Hcur.
        now apply in_rev.
    + apply IH. cbn [forallb]. now rewrite Ec, Hcur.
Qed.

(** [text.split()] gives words. *)
Lemma split_ws_words (s : str) : Forall is_word (split_ws s).
Proof. now apply words_aux_words. Qed.

Lemma slice_incl {A : Type} (l : list A) (i j : Z) : incl (slice l i j) l.
Proof.
  unfold slice. intros x Hx.
  set (a := Z.to_nat (slice_index (Z.of_nat (List.length l)) i)) in *.
  set (n := Z.to_nat _) in Hx.
  rewrite <- (firstn_skipn a l). apply in_or_app. right.
  rewrite <- (firstn_skipn n (skipn a l)). apply in_or_app. now left.
Qed.

Lemma slice_length {A : Type} (l : list A) (i n : Z) :
  (0 <= i)%Z -> (0 <= n)%Z ->
  (Z.of_nat (List.length (slice l i (i + n))) <= n)%Z.
Proof.
  intros Hi Hn. unfold slice, slice_index.
  pose proof (firstn_le_length
    (Z.to_nat
       (Z.max 0 (Z.min (Z.of_nat (List.length l))
                   (if (i + n <? 0)%Z then (i + n + Z.of_nat (List.length l))%Z
                    else (i + n)%Z))
        - Z.max 0 (Z.min (Z.of_nat (List.length l))
                     (if (i <? 0)%Z then (i + Z.of_nat (List.length l))%Z else i))))
    (skipn (Z.to_nat
              (Z.max 0 (Z.min (Z.of_nat (List.length l))
                          (if (i <? 0)%Z then (i + Z.of_nat (List.length l))%Z
                           else i)))) l)) as H.
  destruct (i <? 0)%Z eqn:E1; [apply Z.ltb_lt in E1; lia|].
  destruct (i + n <? 0)%Z eqn:E2; [apply Z.ltb_lt in E2; lia|].
  lia.
Qed.

Section ChunkLoop.

Variable words : list str.
Variables chunk_size overlap : Z.

(** More fuel does not change a result. *)
Lemma chunk_loop_more_fuel (fuel fuel' : nat) (i : Z) (chunks r : list str) :
  (fuel <= fuel')%nat ->
  chunk_loop fuel words chunk_size overlap i chunks = Some r ->
  chunk_loop fuel' words chunk_size overlap i chunks = Some r.
Proof.
  revert fuel' i chunks; induction fuel as [|fuel IH]; intros fuel' i chunks Hle;
    [discriminate|].
  destruct fuel' as [|fuel']; [lia|]. cbn [chunk_loop].
  destruct (i <? Z.of_nat (List.length words))%Z; [|trivial].
  apply IH. lia.
Qed.

(** With a positive step the loop ends within [len(words) - i + 1] tests of
    its condition, having appended chunks cut at positions from [i] on. *)
Lemma chunk_loop_ends (fuel : nat) (i : Z) (chunks : list str) :
  (overlap < chunk_size)%Z -> (0 <= i)%Z ->
  (Z.to_nat (Z.of_nat (List.length words) - i) < fuel)%nat ->
  exists more,
    chunk_loop fuel words chunk_size overlap i chunks = Some (chunks ++ more)
    /\ Forall (chunk_at words chunk_size) more.
Proof.
  intros Hstep. revert i chunks; induction fuel as [|fuel IH]; intros i chunks Hi Hf;
    [lia|].
  cbn [chunk_loop].
  destruct (i <? Z.of_nat (List.length words))%Z eqn:E.
  - apply Z.ltb_lt in E.
    destruct (IH (i + (chunk_size - overlap))%Z
                (chunks ++ [join (lit " ") (slice words i (i + chunk_size))]))
      as (more & Hmore & Hall); [lia | lia |].
    exists (join (lit " ") (slice words i (i + chunk_size)) :: more). split.
    + rewrite Hmore, <- app_assoc. reflexivity.
    + constructor; [|exact Hall]. exists i. now split.
  - exists []. rewrite app_nil_r. now split.
Qed.

(** With a step that is not positive the loop never ends once it has
    started at a position that is not positive. *)
Lemma chunk_loop_diverges (fuel : nat) (i : Z) (chunks : list str) :
  (chunk_size <= overlap)%Z -> (i <= 0)%Z -> words <> [] ->
  chunk_loop fuel words chunk_size overlap i chunks = None.
Proof.
  intros Hstep. revert i chunks; induction fuel as [|fuel IH]; intros i chunks Hi Hw;
    [reflexivity|].
  cbn [chunk_loop].
  destruct (i <? Z.of_nat (List.length words))%Z eqn:E.
  - apply IH; [lia | exact Hw].
  - apply Z.ltb_ge in E. destruct words; [congruence | simpl in E; lia].
Qed.

End ChunkLoop.

(** A chunk cut from a list of words has at most [chunk_size] words, all of
    them words of the list. *)
Lemma chunk_at_words (words : list str) (chunk_size : Z) (chunk : str) :
  Forall is_word words -> (0 <= chunk_size)%Z ->
  chunk_at words chunk_size chunk ->
  (Z.of_nat (List.length (split_ws chunk)) <= chunk_size)%Z
  /\ incl (split_ws chunk) words.
Proof.
  intros Hw Hn (j & Hj & ->).
  rewrite split_ws_join.
  - split; [now apply slice_length | apply slice_incl].
  - rewrite Forall_forall in *. intros w H. apply Hw. now apply slice_incl in H.
Qed.

Example chunk_text_defaults_short :
  chunk_text 10 (lit "one two  three") 1000 200 = Some [lit "one two three"].
Proof. reflexivity. Qed.

Example chunk_text_overlapping :
  chunk_text 10 (lit "a b c d e") 3 1
  = Some [lit "a b c"; lit "c d e"; lit "e"].
Proof. reflexivity. Qed.

(** C10 (amended).  For every text and every [chunk_size > overlap],
    [chunk_text] terminates: the loop ends within [len(words) + 1] tests
    of its condition, with the same chunks whatever larger bound is
    allowed.  When moreover [chunk_size >= 0], every chunk holds at most
    [chunk_size] white-space-separated words, all of them words of the
    text. *)
Theorem chunk_text_terminates_bounded (text : str) (chunk_size overlap : Z) :
  (overlap < chunk_size)%Z ->
  exists chunks,
    (forall fuel,
        (List.length (split_ws text) < fuel)%nat ->
        chunk_text fuel text chunk_size overlap = Some chunks)
    /\ ((0 <= chunk_size)%Z ->
        Forall (fun chunk =>
                  (Z.of_nat (List.length (split_ws chunk)) <= chunk_size)%Z
                  /\ incl (split_ws chunk) (split_ws text)) chunks).
Proof.
  intros Hstep.
  destruct (chunk_loop_ends (split_ws text) chunk_size overlap
              (S (List.length (split_ws text))) 0 [] Hstep)
    as (chunks & Hrun & Hall); [lia | lia |].
  exists chunks. split.
  - intros fuel Hfuel. unfold chunk_text.
    eapply chunk_loop_more_fuel; [|exact Hrun]. lia.
  - intros Hsize. eapply Forall_impl; [|exact Hall].
    intros chunk Hc. apply chunk_at_words; auto using split_ws_words.
Qed.

Lemma chunk_text_terminates_bounded_witness :
  (1 < 3)%Z
  /\ exists chunks,
       (forall fuel,
           (List.length (split_ws (lit "a b c d e")) < fuel)%nat ->
           chunk_text fuel (lit "a b c d e") 3 1 = Some chunks)
       /\ ((0 <= 3)%Z ->
           Forall (fun chunk =>
                     (Z.of_nat (List.length (split_ws chunk)) <= 3)%Z
                     /\ incl (split_ws chunk) (split_ws (lit "a b c d e"))) chunks).
Proof.
  split; [lia | apply (chunk_text_terminates_bounded (lit "a b c d e") 3 1); lia].
Defined.

Example chunk_text_negative_size_run :
  chunk_text 10 (lit "a b c") (-1) (-2) = Some [lit "a b"; []; []].
Proof. reflexivity. Qed.

(** C10 as stated fails: with [chunk_size = -1] and [overlap = -2] the
    step is 1, the slice [words[0:-1]] of the three words of ["a b c"]
    holds two of them, and two is more than [chunk_size]. *)
Lemma chunk_text_negative_chunk_size :
  ~ (forall (text : str) (chunk_size overlap : Z) (fuel : nat) (chunks : list str),
        (overlap < chunk_size)%Z ->
        chunk_text fuel text chunk_size overlap = Some chunks ->
        Forall (fun chunk =>
                  (Z.of_nat (List.length (split_ws chunk)) <= chunk_size)%Z) chunks).
Proof.
  intros H.
  specialize (H (lit "a b c") (-1)%Z (-2)%Z 10%nat _ ltac:(lia) eq_refl).
  inversion H as [|? ? Hhd _]. vm_compute in Hhd. apply Hhd. reflexivity.
Qed.

(** With [chunk_size <= overlap] and a text that has a word, the loop
    never ends. *)
Lemma chunk_text_diverges (fuel : nat) (text : str) (chunk_size overlap : Z) :
  (chunk_size <= overlap)%Z -> split_ws text <> [] ->
  chunk_text fuel text chunk_size overlap = None.
Proof.
  intros Hstep Hw. unfold chunk_text. apply chunk_loop_diverges; auto. lia.
Qed.

Lemma split_once_aux_contains (sep cur s : str) :
  split_once_aux sep cur s = None <-> contains sep s = false.
Proof.
  revert cur; induction s as [|c s IH]; intros cur; cbn [split_once_aux contains].
  - destruct (is_prefix sep []); simpl; intuition congruence.
  - destruct (is_prefix sep (c :: s)); simpl; [intuition congruence | apply IH].
Qed.

(** The unpacking of line 108 cannot fail: the guard of line 106 has seen
    the colon. *)
Lemma split_once_contains (sep s : str) :
  contains sep s = true -> exists a b, split_once sep s = Some (a, b).
Proof.
  intros H. unfold split_once.
  destruct (split_once_aux sep [] s) as [[a b]|] eqn:E; [now exists a, b|].
  apply split_once_aux_contains in E. congruence.
Qed.

(** C8.  For every query text, index and [top_k], and whatever
    [search_index] does, [retrieve_evidence] raises nothing and returns a
    mapping.  Each entry of the mapping was written by a line that has a
    colon, whose query has more than two characters and whose search
    returned: lines without a colon, lines with a query of at most two
    characters and lines whose search raised leave nothing. *)
Theorem retrieve_evidence_never_raises (Index : Type)
    (search_index : Index -> str -> Z -> result (list passage))
    (query_text : str) (index : Index) (top_k : Z) :
  exists evidence,
    retrieve_evidence Index search_index query_text index top_k = Ok evidence
    /\ forall key v,
         dict_get key evidence = Some v ->
         exists line,
           In line (split [NL] query_text)
           /\ contains (lit ":") line = true
           /\ written_by Index search_index index top_k line key v.
Proof.
  unfold retrieve_evidence.
  apply retrieve_evidence_loop_ok.
  - intros key v H. discriminate.
  - intros line key v Hin Hw. exists line. repeat split; auto.
    destruct Hw as (cid & query & Hs & _).
    destruct (contains (lit ":") line) eqn:E; [reflexivity|].
    apply (split_once_aux_contains (lit ":") [] line) in E.
    unfold split_once in Hs. congruence.
Qed.

Example retrieve_evidence_partial :
  retrieve_evidence unit
    (fun _ query _ =>
       if contains (lit "boom") query
       then Raise (RuntimeError "search failed")
       else Ok [ {| text := query |} ])
    (lit "Claim 1: born in Paris" ++ [NL] ++ lit "no separator here" ++ [NL]
     ++ lit "Claim 2: ab" ++ [NL] ++ lit "Claim 3: boom boom" ++ [NL])
    tt 5
  = Ok [ (lit "Claim 1", [ {| text := lit "born in Paris" |} ]) ].
Proof. reflexivity. Qed.

(** ** The stages answered by the oracle *)

Ltac find_in_prompt :=
  repeat first [ apply contains_prefix | apply contains_app_r ].

(** The scoring prompt carries the formula and the range as instructions. *)
Lemma score_prompt_rules (w m d c : str) :
  contains (lit "3. Final Score = 1.0 - (Total Penalty / Total Possible)")
    (calculate_contradiction_score_prompt w m d c) = true
  /\ contains (lit "Final Score: <0.0-1.0>")
       (calculate_contradiction_score_prompt w m d c) = true.
Proof.
  unfold calculate_contradiction_score_prompt; cbn [join].
  split; find_in_prompt.
Qed.

(** The decision prompt carries the threshold as an instruction. *)
Lemma decision_prompt_rules (w m sa d c : str) :
  contains (lit "- Contradiction Score < 0.4 " ++ [8594%N] ++ lit " Output 0 (Contradict)")
    (final_decision_with_score_prompt w m sa d c) = true
  /\ contains (lit "- Contradiction Score >= 0.4 " ++ [8594%N] ++ lit " Output 1 (Consistent)")
       (final_decision_with_score_prompt w m sa d c) = true
  /\ contains sa (final_decision_with_score_prompt w m sa d c) = true.
Proof.
  unfold final_decision_with_score_prompt; cbn [join].
  split; [reflexivity | split; [reflexivity | find_in_prompt]].
Qed.

(** The validation prompt carries the three texts and names the
    prerequisite of a claim, not a chain of them, as what orphans it. *)
Lemma validation_prompt_parts (claims causal deps : str) :
  contains claims (cross_claim_validation_prompt claims causal deps) = true
  /\ contains causal (cross_claim_validation_prompt claims causal deps) = true
  /\ contains deps (cross_claim_validation_prompt claims causal deps) = true
  /\ contains (lit "- Its prerequisite " ++ dq ++ lit "Root Claim" ++ dq
               ++ lit " (the event it's based on) has a FATAL CONTRADICTION.")
       (cross_claim_validation_prompt claims causal deps) = true.
Proof.
  unfold cross_claim_validation_prompt; cbn [join].
  split; [find_in_prompt | split; [find_in_prompt | split; [find_in_prompt | reflexivity]]].
Qed.

(** C1 (amended).  The scoring stage returns the oracle's answer to a
    prompt that states the formula and asks for a value between 0.0 and
    1.0; the code applies no clamp to it.  The one score the code reads
    itself, the confidence that the pattern of [parse_decision] takes from
    the decision output, lies between 0 and 1 for every decision output: a
    value outside the pattern is not matched and the default stands in. *)
Theorem score_is_oracle_reply_confidence_in_range :
  (forall (call_llm : str -> Z -> result str) (w m d c : str),
      calculate_contradiction_score call_llm w m d c
      = call_llm (calculate_contradiction_score_prompt w m d c) 1000%Z
      /\ contains (lit "3. Final Score = 1.0 - (Total Penalty / Total Possible)")
           (calculate_contradiction_score_prompt w m d c) = true
      /\ contains (lit "Final Score: <0.0-1.0>")
           (calculate_contradiction_score_prompt w m d c) = true)
  /\ (forall (decision_output : str) (prediction : Z),
         (0 <= extract_confidence decision_output prediction)%Q
         /\ (extract_confidence decision_output prediction <= 1)%Q).
Proof.
  split.
  - intros call_llm w m d c. split; [reflexivity | apply score_prompt_rules].
  - apply extract_confidence_range.
Qed.

(** C1 as stated fails: one MAJOR claim with a FATAL CONTRADICTION (1.0)
    and an IMPOSSIBLE transition (0.5) give, by the formula of the prompt,
    1.0 - 1.5 / 1 = -0.5; an oracle that answers so is returned as it is,
    and the score analysis reports a final score below 0. *)
Lemma final_score_not_clamped :
  ~ (forall (call_llm : str -> Z -> result str) (w m d c score_analysis : str) (q : Q),
        calculate_contradiction_score call_llm w m d c = Ok score_analysis ->
        reported_final_score score_analysis = Some q ->
        (0 <= q)%Q /\ (q <= 1)%Q).
Proof.
  intros H.
  destruct (H (scripted_oracle
                 (lit "Total Penalty: 1.5" ++ [NL] ++ lit "Final Score: -0.5") [])
              (lit "Claim 1" ++ [NL] ++ lit "Importance: MAJOR" ++ [NL]
               ++ lit "Result: FATAL CONTRADICTION")
              (lit "Claim 1" ++ [NL] ++ lit "Transition Type: IMPOSSIBLE")
              [] [] _ (-5 # 10)%Q eq_refl eq_refl) as [H0 _].
  unfold Qle in H0. simpl in H0. lia.
Qed.

(** C2 (amended).  The decision stage returns the oracle's answer to a
    prompt that states the threshold of 0.4 and carries the score
    analysis; the code compares no score with 0.4.  The prediction is read
    from the decision text alone: 0 exactly when the text contains
    [Prediction: 0] or [Prediction:0], and 1 otherwise. *)
Theorem prediction_read_from_decision_text :
  (forall (call_llm : str -> Z -> result str) (w m sa d c : str),
      final_decision_with_score call_llm w m sa d c
      = call_llm (final_decision_with_score_prompt w m sa d c) 600%Z
      /\ contains
           (lit "- Contradiction Score < 0.4 " ++ [8594%N] ++ lit " Output 0 (Contradict)")
           (final_decision_with_score_prompt w m sa d c) = true
      /\ contains
           (lit "- Contradiction Score >= 0.4 " ++ [8594%N] ++ lit " Output 1 (Consistent)")
           (final_decision_with_score_prompt w m sa d c) = true
      /\ contains sa (final_decision_with_score_prompt w m sa d c) = true)
  /\ (forall decision : str,
         (parse_prediction decision = 0%Z
          <-> contains (lit "Prediction: 0") decision = true
              \/ contains (lit "Prediction:0") decision = true)
         /\ (parse_prediction decision = 1%Z
             <-> contains (lit "Prediction: 0") decision = false
                 /\ contains (lit "Prediction:0") decision = false)).
Proof.
  split.
  - intros call_llm w m sa d c. split; [reflexivity | apply decision_prompt_rules].
  - intros decision. split; [apply parse_prediction_zero | apply parse_prediction_one].
Qed.

(** C2 as stated fails: the score analysis reports 0.1, below 0.4, the
    oracle's decision says [Prediction: 1], and the prediction read is 1;
    the confidence read from the same decision is 0.1 as well. *)
Lemma prediction_not_thresholded :
  ~ (forall (call_llm : str -> Z -> result str)
            (w m d c score_analysis decision : str) (final_score : Q),
        calculate_contradiction_score call_llm w m d c = Ok score_analysis ->
        final_decision_with_score call_llm w m score_analysis d c = Ok decision ->
        reported_final_score score_analysis = Some final_score ->
        ((final_score < 4 # 10)%Q -> parse_prediction decision = 0%Z)
        /\ ((4 # 10 <= final_score)%Q -> parse_prediction decision = 1%Z)).
Proof.
  intros H.
  destruct (H (scripted_oracle
                 (lit "Total Penalty: 0.9" ++ [NL] ++ lit "Final Score: 0.1")
                 (lit "Prediction: 1" ++ [NL] ++ lit "Confidence Score: 0.1" ++ [NL]
                  ++ lit "Rationale: no contradiction found"))
              (lit "Claim 1" ++ [NL] ++ lit "Importance: MAJOR" ++ [NL]
               ++ lit "Result: SOFT CONTRADICTION")
              [] [] [] _ _ (1 # 10)%Q eq_refl eq_refl eq_refl) as [H0 _].
  assert (Hlt : (1 # 10 < 4 # 10)%Q) by (unfold Qlt; simpl; lia).
  specialize (H0 Hlt). vm_compute in H0. discriminate.
Qed.

Example low_confidence_with_prediction_one :
  parse_decision_in pipeline_globals_with_imports
    (lit "Prediction: 1" ++ [NL] ++ lit "Confidence Score: 0.1" ++ [NL]
     ++ lit "Rationale: no contradiction found")
  = Ok (1%Z, (1 # 10)%Q, lit "no contradiction found").
Proof. reflexivity. Qed.

(** C3 (amended).  The scoring stage divides nowhere and applies no
    default: for every oracle and every input, with or without MAJOR
    claims, it raises exactly what the oracle call raises and returns
    exactly what it returns.  When the oracle answers, the score analysis
    and the decision are its answers, and the prediction read from the
    decision is 1 exactly when the decision contains neither
    [Prediction: 0] nor [Prediction:0]. *)
Theorem scoring_has_no_default_of_its_own
    (call_llm : str -> Z -> result str) (w m d c : str) :
  (forall e,
      calculate_contradiction_score call_llm w m d c = Raise e
      <-> call_llm (calculate_contradiction_score_prompt w m d c) 1000%Z = Raise e)
  /\ (forall score_analysis,
         calculate_contradiction_score call_llm w m d c = Ok score_analysis
         <-> call_llm (calculate_contradiction_score_prompt w m d c) 1000%Z
             = Ok score_analysis)
  /\ (forall score_analysis decision,
         call_llm (calculate_contradiction_score_prompt w m d c) 1000%Z
         = Ok score_analysis ->
         call_llm (final_decision_with_score_prompt w m score_analysis d c) 600%Z
         = Ok decision ->
         calculate_contradiction_score call_llm w m d c = Ok score_analysis
         /\ final_decision_with_score call_llm w m score_analysis d c = Ok decision
         /\ (parse_prediction decision = 1%Z
             <-> contains (lit "Prediction: 0") decision = false
                 /\ contains (lit "Prediction:0") decision = false)).
Proof.
  split; [intros e; reflexivity|].
  split; [intros score_analysis; reflexivity|].
  intros score_analysis decision Hs Hd.
  split; [exact Hs | split; [exact Hd |]].
  apply parse_prediction_one.
Qed.

(** An oracle that raises: the scoring stage raises the same, with a
    causal analysis that names no MAJOR claim as with any other. *)
Example scoring_with_failing_oracle :
  calculate_contradiction_score
    (fun _ _ => Raise (RuntimeError "Max retries exceeded"))
    (lit "Claim 1" ++ [NL] ++ lit "Importance: MINOR" ++ [NL]
     ++ lit "Result: CONSISTENT") [] [] []
  = Raise (RuntimeError "Max retries exceeded").
Proof. reflexivity. Qed.

(** An oracle that answers: its answers are the score analysis and the
    decision, whatever they say of a story without MAJOR claims. *)
Example scoring_with_answering_oracle :
  calculate_contradiction_score
    (scripted_oracle (lit "Final Score: 0.0") (lit "Prediction: 0"))
    (lit "Claim 1" ++ [NL] ++ lit "Importance: MINOR" ++ [NL]
     ++ lit "Result: SOFT CONTRADICTION") [] [] []
  = Ok (lit "Final Score: 0.0")
  /\ final_decision_with_score
       (scripted_oracle (lit "Final Score: 0.0") (lit "Prediction: 0"))
       (lit "Claim 1" ++ [NL] ++ lit "Importance: MINOR" ++ [NL]
        ++ lit "Result: SOFT CONTRADICTION") [] (lit "Final Score: 0.0") [] []
     = Ok (lit "Prediction: 0").
Proof. split; reflexivity. Qed.

(** C3 as stated fails: the causal analysis names no MAJOR claim, the
    oracle reports a final score of 0.0 and decides [Prediction: 0]; the
    code returns both as they are. *)
Lemma no_major_score_not_defaulted :
  ~ (forall (call_llm : str -> Z -> result str)
            (w m d c score_analysis decision : str),
        contains (lit "MAJOR") w = false ->
        calculate_contradiction_score call_llm w m d c = Ok score_analysis ->
        final_decision_with_score call_llm w m score_analysis d c = Ok decision ->
        (exists q, reported_final_score score_analysis = Some q /\ (q == 1)%Q)
        /\ parse_prediction decision = 1%Z).
Proof.
  intros H.
  destruct (H (scripted_oracle
                 (lit "- MINOR issues: 1 claims (-0.2)" ++ [NL]
                  ++ lit "Total Penalty: 0.2" ++ [NL] ++ lit "Final Score: 0.0")
                 (lit "Prediction: 0" ++ [NL] ++ lit "Confidence Score: 0.0" ++ [NL]
                  ++ lit "Rationale: Claim 1 contradicted"))
              (lit "Claim 1" ++ [NL] ++ lit "Importance: MINOR" ++ [NL]
               ++ lit "Result: SOFT CONTRADICTION")
              [] [] [] _ _ eq_refl eq_refl eq_refl) as [_ Hp].
  vm_compute in Hp. discriminate.
Qed.

(** C4 (amended).  The validation stage returns the oracle's answer to a
    prompt that carries the claims, the causal analysis and the dependency
    listing, with the instruction that a claim is orphaned when its
    prerequisite root claim has a FATAL CONTRADICTION; the code builds no
    graph and derives no status.  The answer goes unread into the scoring
    prompt. *)
Theorem orphan_status_is_oracle_reply
    (call_llm : str -> Z -> result str) (claims causal deps : str) :
  cross_claim_validation call_llm claims causal deps
  = call_llm (cross_claim_validation_prompt claims causal deps) 2000%Z
  /\ (contains claims (cross_claim_validation_prompt claims causal deps) = true
      /\ contains causal (cross_claim_validation_prompt claims causal deps) = true
      /\ contains deps (cross_claim_validation_prompt claims causal deps) = true
      /\ contains (lit "- Its prerequisite " ++ dq ++ lit "Root Claim" ++ dq
                   ++ lit " (the event it's based on) has a FATAL CONTRADICTION.")
           (cross_claim_validation_prompt claims causal deps) = true)
  /\ forall w m dependency_analysis c,
       contains dependency_analysis
         (calculate_contradiction_score_prompt w m dependency_analysis c) = true.
Proof.
  split; [reflexivity|]. split; [apply validation_prompt_parts|].
  intros w m dependency_analysis c.
  unfold calculate_contradiction_score_prompt; cbn [join]. find_in_prompt.
Qed.

(** C4 as stated fails, already in its particular case: the dependency
    listing is empty, so Claim 1 has no outgoing edge, the causal analysis
    holds no FATAL CONTRADICTION, and the answer returned gives Claim 1 the
    status CAUSALLY ORPHANED. *)
Lemma orphan_without_dependency_edge :
  ~ (forall (call_llm : str -> Z -> result str)
            (claims causal deps dependency_analysis claim_id : str),
        cross_claim_validation call_llm claims causal deps = Ok dependency_analysis ->
        has_dependency_edge claim_id deps = false ->
        reported_orphaned claim_id dependency_analysis = false).
Proof.
  intros H.
  specialize (H (scripted_oracle []
                   (lit "Claim 1" ++ [NL] ++ lit "Status: CAUSALLY ORPHANED" ++ [NL]
                    ++ lit "Explanation: the root claim is contradicted."))
                (lit "Claim 1: She grew up by the sea.")
                (lit "Claim 1" ++ [NL] ++ lit "Importance: MINOR" ++ [NL]
                 ++ lit "Result: CONSISTENT")
                [] _ (lit "Claim 1") eq_refl eq_refl).
  vm_compute in H. discriminate.
Qed.

(** ** [parse_decision] and [run_pipeline] as the module stands *)

(** C9.  As [pipeline.py] stands, [parse_decision] returns nothing: for
    every input, line 40 reads the global [re], which the module never
    binds, and [NameError] is raised.  With [import re] in place the same
    body returns the prediction, 0 or 1, and the prediction is 1 whenever
    the text has neither [Prediction: 0] nor [Prediction:0]. *)
Theorem parse_decision_raises_name_error (decision_output : str) :
  parse_decision decision_output = Raise (NameError "re")
  /\ parse_decision_in pipeline_globals_with_imports decision_output
     = Ok (parse_prediction decision_output,
           extract_confidence decision_output (parse_prediction decision_output),
           parse_rationale decision_output)
  /\ (parse_prediction decision_output = 0%Z \/ parse_prediction decision_output = 1%Z)
  /\ (contains (lit "Prediction: 0") decision_output = false ->
      contains (lit "Prediction:0") decision_output = false ->
      parse_prediction decision_output = 1%Z).
Proof.
  split; [now apply parse_decision_in_without_re|].
  split; [now apply parse_decision_in_with_re|].
  split; [apply parse_prediction_binary|].
  intros H1 H2. now apply parse_prediction_one.
Qed.

Example parse_decision_empty_input :
  parse_decision [] = Raise (NameError "re").
Proof. reflexivity. Qed.

(** C6.  As [pipeline.py] stands, no rationale is extracted: for every
    decision output [parse_decision] raises [NameError] at line 40, before
    lines 51 to 55 are reached.  With [import re] in place the rationale
    returned is [parse_rationale] of the text: it holds no newline and
    neither starts nor ends with a single quote. *)
Theorem rationale_never_extracted (decision_output : str) :
  parse_decision decision_output = Raise (NameError "re")
  /\ exists prediction confidence_score rationale,
       parse_decision_in pipeline_globals_with_imports decision_output
       = Ok (prediction, confidence_score, rationale)
       /\ rationale = parse_rationale decision_output
       /\ Forall (fun ch => ch <> NL) rationale
       /\ (forall t, rationale <> 39%N :: t)
       /\ (forall t, rationale <> t ++ [39%N]).
Proof.
  split; [now apply parse_decision_in_without_re|].
  eexists _, _, _.
  split; [now apply parse_decision_in_with_re|].
  split; [reflexivity|].
  split; [apply parse_rationale_single_line|].
  apply parse_rationale_no_outer_single_quote.
Qed.

Example parse_decision_two_line_rationale :
  parse_decision
    (lit "Prediction: 0" ++ [NL] ++ lit "Rationale: " ++ dq ++ lit "Root claim 2 contradicted"
     ++ [NL] ++ lit "as the text shows" ++ dq)
  = Raise (NameError "re")
  /\ parse_rationale
       (lit "Prediction: 0" ++ [NL] ++ lit "Rationale: " ++ dq
        ++ lit "Root claim 2 contradicted" ++ [NL] ++ lit "as the text shows" ++ dq)
     = lit "Root claim 2 contradicted".
Proof. split; reflexivity. Qed.

(** C7.  As [pipeline.py] stands, no default confidence is assigned: for a
    decision output in which the pattern matches nowhere, as for any
    other, [parse_decision] raises [NameError] at line 40.  With
    [import re] in place the confidence returned for such an output is 0.2
    when the prediction is 0 and 0.8 otherwise. *)
Theorem confidence_default_never_assigned (decision_output : str) :
  re_search_confidence decision_output = None ->
  parse_decision decision_output = Raise (NameError "re")
  /\ parse_decision_in pipeline_globals_with_imports decision_output
     = Ok (parse_prediction decision_output,
           (if (parse_prediction decision_output =? 0)%Z
            then (2 # 10)%Q else (8 # 10)%Q),
           parse_rationale decision_output).
Proof.
  intros H. split; [now apply parse_decision_in_without_re|].
  rewrite parse_decision_in_with_re by reflexivity.
  now rewrite (extract_confidence_default _ _ H).
Qed.

Lemma confidence_default_never_assigned_witness :
  re_search_confidence (lit "Prediction: 1") = None
  /\ (parse_decision (lit "Prediction: 1") = Raise (NameError "re")
      /\ parse_decision_in pipeline_globals_with_imports (lit "Prediction: 1")
         = Ok (parse_prediction (lit "Prediction: 1"),
               (if (parse_prediction (lit "Prediction: 1") =? 0)%Z
                then (2 # 10)%Q else (8 # 10)%Q),
               parse_rationale (lit "Prediction: 1"))).
Proof.
  split; [reflexivity|].
  apply (confidence_default_never_assigned (lit "Prediction: 1")). reflexivity.
Defined.

Section PipelineFacts.

Variable Index : Type.
Variable search_index : Index -> str -> Z -> result (list passage).
Variable call_llm : str -> Z -> result str.
Variable build_vector_index : str -> result Index.
Variable listdir : str -> result (list str).
Variable path_exists : str -> bool.
Variable load_text : str -> result str.

(** In a module that does not bind [re], the processing of a story always
    ends in an exception: [parse_decision] is its last step. *)
Lemma process_story_without_re (globals : list string) (submission_mode : bool)
    (story_id novel_path backstory_path : str) :
  existsb (String.eqb "re") globals = false ->
  exists e,
    process_story Index search_index call_llm build_vector_index load_text globals
      submission_mode story_id novel_path backstory_path = Raise e.
Proof.
  intros Hre. unfold process_story.
  repeat match goal with
         | |- exists e, bind (parse_decision_in _ _) _ = Raise e =>
             rewrite (parse_decision_in_without_re _ _ Hre); now eexists
         | |- exists e, bind ?r _ = Raise e =>
             let e0 := fresh "e" in
             destruct r as [?|e0]; cbn [bind]; [|now exists e0]
         end.
Qed.

(** In a module that binds [os], the loop raises nothing, passes over
    every story whose processing raised and goes on with the next one:
    the rows it adds are those of the stories that were processed to the
    end, in order. *)
Lemma story_loop_rows (globals : list string) (submission_mode : bool)
    (story_files : list str) (results : list row) :
  existsb (String.eqb "os") globals = true ->
  story_loop Index search_index call_llm build_vector_index path_exists load_text
    globals submission_mode story_files results
  = Ok (results
        ++ story_rows Index search_index call_llm build_vector_index path_exists
             load_text globals submission_mode story_files).
Proof.
  intros Hos. revert results.
  induction story_files as [|fname rest IH]; intros results.
  - simpl. now rewrite app_nil_r.
  - cbn [story_loop story_rows flat_map]. unfold load_global. rewrite Hos.
    cbn [bind].
    destruct (path_exists (backstory_path_of (story_id_of fname))); cbn [negb].
    + destruct (process_story _ _ _ _ _ _ _ _ _ _) as [r|e].
      * rewrite IH, <- app_assoc. reflexivity.
      * rewrite IH. reflexivity.
    + rewrite IH. reflexivity.
Qed.

(** In a module that does not bind [os], the loop stops at line 80 of its
    first turn. *)
Lemma story_loop_without_os (globals : list string) (submission_mode : bool)
    (fname : str) (rest : list str) (results : list row) :
  existsb (String.eqb "os") globals = false ->
  story_loop Index search_index call_llm build_vector_index path_exists load_text
    globals submission_mode (fname :: rest) results
  = Raise (NameError "os").
Proof.
  intros Hos. cbn [story_loop]. unfold load_global. now rewrite Hos.
Qed.

(** C5.  As [pipeline.py] stands, no batch is processed: whatever the
    data directory holds and whatever the stages do, [run_pipeline] raises
    [NameError] at line 65, where it reads the global [os] that the module
    never binds, and the loop itself would raise the same at line 80,
    outside the [try].  With [import os] and [import re] in place the loop
    raises nothing and returns the rows of exactly the stories whose
    processing raised nothing: a story that raised leaves no row, and the
    stories after it are processed. *)
Theorem run_pipeline_raises_name_error (submission_mode : bool) :
  run_pipeline Index search_index call_llm build_vector_index listdir path_exists
    load_text submission_mode
  = Raise (NameError "os")
  /\ (forall fname rest results,
         story_loop Index search_index call_llm build_vector_index path_exists
           load_text pipeline_globals submission_mode (fname :: rest) results
         = Raise (NameError "os"))
  /\ (forall story_files results,
         story_loop Index search_index call_llm build_vector_index path_exists
           load_text pipeline_globals_with_imports submission_mode story_files results
         = Ok (results
               ++ story_rows Index search_index call_llm build_vector_index
                    path_exists load_text pipeline_globals_with_imports
                    submission_mode story_files)).
Proof.
  split; [reflexivity|]. split.
  - intros fname rest results. now apply story_loop_without_os.
  - intros story_files results. now apply story_loop_rows.
Qed.

End PipelineFacts.

(** Two stories, the first of which cannot be read.  As the module stands
    the run raises before it looks at either; with both imports the first
    story is passed over and the second gives its row. *)
Example run_pipeline_two_stories :
  run_pipeline unit (fun _ _ _ => Ok [])
    (fun _ _ => Ok (lit "Prediction: 0" ++ [NL] ++ lit "Confidence Score: 0.3" ++ [NL]
                    ++ lit "Rationale: Root claim 1 contradicted"))
    (fun _ => Ok tt)
    (fun _ => Ok [lit "story_1.txt"; lit "backstory_1.txt";
                  lit "story_2.txt"; lit "backstory_2.txt"])
    (fun _ => true)
    (fun path => if str_eqb path (lit "data/story_1.txt")
                 then Raise (OSError "cannot read") else Ok (lit "text"))
    false
  = Raise (NameError "os")
  /\ run_pipeline_in unit (fun _ _ _ => Ok [])
       (fun _ _ => Ok (lit "Prediction: 0" ++ [NL] ++ lit "Confidence Score: 0.3" ++ [NL]
                       ++ lit "Rationale: Root claim 1 contradicted"))
       (fun _ => Ok tt)
       (fun _ => Ok [lit "story_1.txt"; lit "backstory_1.txt";
                     lit "story_2.txt"; lit "backstory_2.txt"])
       (fun _ => true)
       (fun path => if str_eqb path (lit "data/story_1.txt")
                    then Raise (OSError "cannot read") else Ok (lit "text"))
       pipeline_globals_with_imports false
     = Ok (Written [Row4 (lit "2") 0 (3 # 10)%Q (lit "Root claim 1 contradicted")] true).
Proof. split; vm_compute; reflexivity. Qed.

(** ** [chunk_text]: the chunks in closed form *)

Lemma slice_nth_error {A : Type} (l : list A) (j n p : Z) (x : A) :
  (0 <= j <= p)%Z -> (p < j + n)%Z ->
  nth_error l (Z.to_nat p) = Some x ->
  In x (slice l j (j + n)).
Proof.
  intros Hj Hp Hx.
  assert (Hlen : (Z.to_nat p < List.length l)%nat).
  { apply nth_error_Some. congruence. }
  unfold slice, slice_index.
  destruct (j <? 0)%Z eqn:E1; [apply Z.ltb_lt in E1; lia|].
  destruct (j + n <? 0)%Z eqn:E2; [apply Z.ltb_lt in E2; lia|].
  set (len := Z.of_nat (List.length l)).
  assert (Ha : Z.max 0 (Z.min len j) = j) by lia.
  rewrite Ha.
  apply (nth_error_In _ (Z.to_nat p - Z.to_nat j)).
  rewrite nth_error_firstn.
  assert (Hlt : (Z.to_nat p - Z.to_nat j
                 <? Z.to_nat (Z.max 0 (Z.min len (j + n)) - j))%nat = true).
  { apply Nat.ltb_lt. lia. }
  rewrite Hlt, nth_error_skipn.
  replace (Z.to_nat j + (Z.to_nat p - Z.to_nat j))%nat with (Z.to_nat p) by lia.
  exact Hx.
Qed.

Section ChunkLoopShape.

Variable words : list str.
Variables chunk_size overlap : Z.
Hypothesis Hstep : (overlap < chunk_size)%Z.

(** From position [i] on, the loop appends the chunks cut at [i],
    [i + step], [i + 2 * step], ... below [len(words)]. *)
Lemma chunk_loop_shape (fuel : nat) (i : Z) (chunks : list str) :
  (0 <= i)%Z ->
  (Z.to_nat (Z.of_nat (List.length words) - i) < fuel)%nat ->
  chunk_loop fuel words chunk_size overlap i chunks
  = Some
      (chunks
       ++ map (fun k => chunk_from words chunk_size
                          (i + Z.of_nat k * (chunk_size - overlap)))
            (seq 0 (Z.to_nat ((Z.of_nat (List.length words) - i
                               + (chunk_size - overlap) - 1)
                              / (chunk_size - overlap))))).
Proof.
  revert i chunks; induction fuel as [|fuel IH]; intros i chunks Hi Hf; [lia|].
  cbn [chunk_loop]. set (n := Z.of_nat (List.length words)) in *.
  set (step := (chunk_size - overlap)%Z) in *.
  assert (Hs : (0 < step)%Z) by (unfold step; lia).
  destruct (i <? n)%Z eqn:E.
  - apply Z.ltb_lt in E. rewrite IH by lia.
    replace (n - (i + step) + step - 1)%Z with (n - i - 1)%Z by lia.
    replace (n - i + step - 1)%Z with ((n - i - 1) + 1 * step)%Z by lia.
    rewrite Z.div_add by lia.
    assert (Hq : (0 <= (n - i - 1) / step)%Z) by (apply Z.div_pos; lia).
    replace (Z.to_nat ((n - i - 1) / step + 1))
      with (S (Z.to_nat ((n - i - 1) / step))) by lia.
    cbn [seq map]. rewrite <- app_assoc. cbn [app]. f_equal. f_equal. f_equal.
    + unfold chunk_from. f_equal. f_equal; lia.
    + rewrite <- seq_shift, map_map. apply map_ext. intros k.
      f_equal. lia.
  - apply Z.ltb_ge in E.
    assert (Hq : ((n - i + step - 1) / step <= 0)%Z).
    { destruct (Z_lt_le_dec (n - i + step - 1) 0) as [Hneg|Hpos].
      - pose proof (Z.div_lt_upper_bound (n - i + step - 1) step 0 Hs) as Hd.
        lia.
      - rewrite Z.div_small by lia. lia. }
    replace (Z.to_nat ((n - i + step - 1) / step)) with O by lia.
    cbn [seq map]. now rewrite app_nil_r.
Qed.

End ChunkLoopShape.

Lemma chunk_text_shape (fuel : nat) (text : str) (chunk_size overlap : Z)
    (chunks : list str) :
  (overlap < chunk_size)%Z ->
  chunk_text fuel text chunk_size overlap = Some chunks ->
  chunks = chunks_by_step (split_ws text) chunk_size overlap.
Proof.
  intros Hstep Hrun. unfold chunk_text in Hrun.
  pose proof (chunk_loop_shape (split_ws text) chunk_size overlap Hstep
                (S (List.length (split_ws text))) 0 [] ltac:(lia) ltac:(lia)) as Hs.
  pose proof (chunk_loop_more_fuel _ _ _ _ (Nat.max fuel (S (List.length (split_ws text))))
                _ _ _ (Nat.le_max_l _ _) Hrun) as H1.
  pose proof (chunk_loop_more_fuel _ _ _ _ (Nat.max fuel (S (List.length (split_ws text))))
                _ _ _ (Nat.le_max_r _ _) Hs) as H2.
  rewrite H1 in H2. injection H2 as ->. cbn [app].
  unfold chunks_by_step.
  replace (Z.of_nat (List.length (split_ws text)) - 0 + (chunk_size - overlap) - 1)%Z
    with (Z.of_nat (List.length (split_ws text)) + (chunk_size - overlap) - 1)%Z by lia.
  apply map_ext. intros k. reflexivity.
Qed.

(** With enough turns allowed the loop does end, with those chunks. *)
Lemma chunk_text_returns (text : str) (chunk_size overlap : Z) :
  (overlap < chunk_size)%Z ->
  chunk_text (S (List.length (split_ws text))) text chunk_size overlap
  = Some (chunks_by_step (split_ws text) chunk_size overlap).
Proof.
  intros Hstep.
  pose proof (chunk_loop_shape (split_ws text) chunk_size overlap Hstep
                (S (List.length (split_ws text))) 0 [] ltac:(lia) ltac:(lia)) as Hs.
  unfold chunk_text. rewrite Hs. f_equal.
  apply (chunk_text_shape (S (List.length (split_ws text))) text
           chunk_size overlap _ Hstep).
  exact Hs.
Qed.

(** Any number of turns above [len(words)] is enough. *)
Lemma chunk_text_returns_with (fuel : nat) (text : str) (chunk_size overlap : Z) :
  (overlap < chunk_size)%Z ->
  (List.length (split_ws text) < fuel)%nat ->
  chunk_text fuel text chunk_size overlap
  = Some (chunks_by_step (split_ws text) chunk_size overlap).
Proof.
  intros Hstep Hfuel. unfold chunk_text.
  apply (chunk_loop_more_fuel _ _ _ (S (List.length (split_ws text))) fuel);
    [lia|].
  exact (chunk_text_returns text chunk_size overlap Hstep).
Qed.

(** Every word is in the chunk cut at the last multiple of the step at or
    below its position. *)
Lemma chunks_by_step_cover (text : str) (chunk_size overlap : Z) (w : str) :
  (0 <= overlap)%Z -> (overlap < chunk_size)%Z ->
  In w (split_ws text) ->
  exists chunk,
    In chunk (chunks_by_step (split_ws text) chunk_size overlap)
    /\ In w (split_ws chunk).
Proof.
  intros Hov Hstep Hw.
  destruct (In_nth_error _ _ Hw) as [p Hp].
  assert (Hlen : (p < List.length (split_ws text))%nat).
  { apply nth_error_Some. congruence. }
  set (step := (chunk_size - overlap)%Z).
  assert (Hs : (0 < step)%Z) by (unfold step; lia).
  set (k := Z.to_nat (Z.of_nat p / step)).
  pose proof (Z.div_pos (Z.of_nat p) step ltac:(lia) Hs) as Hk0.
  pose proof (Z.mul_div_le (Z.of_nat p) step Hs) as Hlow.
  pose proof (Z.mul_succ_div_gt (Z.of_nat p) step Hs) as Hup.
  exists (chunk_from (split_ws text) chunk_size (Z.of_nat k * step)). split.
  - unfold chunks_by_step. apply in_map_iff. exists k. split; [reflexivity|].
    apply in_seq. split; [lia|]. cbn [Nat.add]. fold step.
    unfold k. apply Z2Nat.inj_lt; [lia | | ].
    + apply Z.div_pos; lia.
    + apply Z.div_lt_upper_bound; [lia|].
      assert (Hq : (step * ((Z.of_nat (List.length (split_ws text)) + step - 1) / step)
                    > Z.of_nat (List.length (split_ws text)) - 1)%Z).
      { pose proof (Z.mul_succ_div_gt
                      (Z.of_nat (List.length (split_ws text)) + step - 1) step Hs).
        lia. }
      nia.
  - unfold chunk_from. rewrite split_ws_join.
    + apply (slice_nth_error _ _ _ (Z.of_nat p)).
      * unfold k. rewrite Z2Nat.id by lia. lia.
      * unfold k. rewrite Z2Nat.id by lia. unfold step in *. lia.
      * now rewrite Nat2Z.id.
    + pose proof (split_ws_words text) as Hall.
      rewrite Forall_forall in *. intros x Hx. apply Hall.
      now apply slice_incl in Hx.
Qed.

(** With [chunk_size > overlap], [chunk_text] returns, within
    [len(words) + 1] tests of the loop condition, the chunks cut every
    [chunk_size - overlap] words from the first word on, each of
    [chunk_size] words joined by single spaces (fewer at the end): there
    are as many as [len(words) / (chunk_size - overlap)], rounded up.
    No run returns anything else. *)
Theorem chunk_text_closed_form (text : str) (chunk_size overlap : Z) :
  (overlap < chunk_size)%Z ->
  (forall fuel, (List.length (split_ws text) < fuel)%nat ->
     chunk_text fuel text chunk_size overlap
     = Some (chunks_by_step (split_ws text) chunk_size overlap))
  /\ (forall fuel chunks,
        chunk_text fuel text chunk_size overlap = Some chunks ->
        chunks = chunks_by_step (split_ws text) chunk_size overlap).
Proof.
  intros Hstep. split.
  - intros fuel Hfuel. now apply chunk_text_returns_with.
  - intros fuel chunks Hrun. now apply (chunk_text_shape fuel text).
Qed.

Lemma chunk_text_closed_form_witness :
  (1 < 3)%Z
  /\ chunk_text 6 (lit "a b c d e") 3 1
     = Some [lit "a b c"; lit "c d e"; lit "e"].
Proof.
  split; [lia|].
  apply (proj1 (chunk_text_closed_form (lit "a b c d e") 3 1 ltac:(lia)) 6%nat).
  vm_compute. lia.
Defined.

(** With [0 <= overlap < chunk_size] [chunk_text] returns, within
    [len(words) + 1] tests of the loop condition, chunks that lose no
    word: every word of the text is a word of some chunk. *)
Theorem chunk_text_covers_every_word (text : str) (chunk_size overlap : Z) :
  (0 <= overlap)%Z -> (overlap < chunk_size)%Z ->
  exists chunks,
    (forall fuel, (List.length (split_ws text) < fuel)%nat ->
       chunk_text fuel text chunk_size overlap = Some chunks)
    /\ forall w, In w (split_ws text) ->
         exists chunk, In chunk chunks /\ In w (split_ws chunk).
Proof.
  intros Hov Hstep.
  exists (chunks_by_step (split_ws text) chunk_size overlap). split.
  - intros fuel Hfuel. now apply chunk_text_returns_with.
  - intros w Hw. now apply chunks_by_step_cover.
Qed.

Lemma chunk_text_covers_every_word_witness :
  (0 <= 1)%Z /\ (1 < 3)%Z
  /\ exists chunks,
       (forall fuel, (List.length (split_ws (lit "a b c d e")) < fuel)%nat ->
          chunk_text fuel (lit "a b c d e") 3 1 = Some chunks)
       /\ forall w, In w (split_ws (lit "a b c d e")) ->
            exists chunk, In chunk chunks /\ In w (split_ws chunk).
Proof.
  split; [lia|]. split; [lia|].
  apply (chunk_text_covers_every_word (lit "a b c d e") 3 1); lia.
Defined.

(** With [chunk_size <= overlap] the loop never ends on a text that has a
    word: no bound on the number of its turns gives a result. *)
Theorem chunk_text_never_ends (fuel : nat) (text : str) (chunk_size overlap : Z) :
  (chunk_size <= overlap)%Z -> split_ws text <> [] ->
  chunk_text fuel text chunk_size overlap = None.
Proof.
  intros Hstep Hw. unfold chunk_text. apply chunk_loop_diverges; auto. lia.
Qed.

Lemma chunk_text_never_ends_witness :
  (200 <= 200)%Z /\ split_ws (lit "one word") <> []
  /\ chunk_text 50 (lit "one word") 200 200 = None.
Proof.
  split; [lia|]. split; [discriminate|].
  apply (chunk_text_never_ends 50 (lit "one word") 200 200); [lia | discriminate].
Defined.

(** ** [retrieve_evidence]: the mapping as a dictionary *)

Lemma str_eqb_refl (a : str) : str_eqb a a = true.
Proof. now apply str_eqb_eq. Qed.

Lemma str_eqb_neq (a b : str) : a <> b -> str_eqb a b = false.
Proof.
  intros H. destruct (str_eqb a b) eqn:E; [|reflexivity].
  apply str_eqb_eq in E. contradiction.
Qed.

Lemma dict_get_set_same {V : Type} (k : str) (v : V) (d : dict V) :
  dict_get k (dict_set k v d) = Some v.
Proof.
  induction d as [|[k' v'] d IH]; cbn [dict_set dict_get].
  - now rewrite str_eqb_refl.
  - destruct (str_eqb k' k) eqn:E; cbn [dict_get]; now rewrite E.
Qed.

Lemma dict_get_set_other {V : Type} (key k : str) (v : V) (d : dict V) :
  k <> key -> dict_get key (dict_set k v d) = dict_get key d.
Proof.
  intros Hne. induction d as [|[k' v'] d IH]; cbn [dict_set dict_get].
  - now rewrite (str_eqb_neq _ _ Hne).
  - destruct (str_eqb k' k) eqn:E; cbn [dict_get].
    + apply str_eqb_eq in E; subst k'. now rewrite (str_eqb_neq _ _ Hne).
    + destruct (str_eqb k' key); [reflexivity | exact IH].
Qed.

Lemma contains_char_In (c : char) (s : str) :
  contains [c] s = true -> In c s.
Proof.
  induction s as [|x s IH]; cbn [contains is_prefix]; [discriminate|].
  intros H. apply orb_true_iff in H as [H|H].
  - rewrite andb_true_r in H. apply N.eqb_eq in H. now left.
  - right. now apply IH.
Qed.

Lemma lstrip_by_keeps f (c : char) (s : str) :
  f c = false -> In c s -> In c (lstrip_by f s).
Proof.
  intros Hc. induction s as [|x s IH]; cbn [lstrip_by]; [tauto|].
  intros [->|H].
  - rewrite Hc. now left.
  - destruct (f x); [now apply IH | now right].
Qed.

Lemma strip_by_keeps f (c : char) (s : str) :
  f c = false -> In c s -> In c (strip_by f s).
Proof.
  intros Hc H. unfold strip_by, rstrip_by.
  apply in_rev. rewrite rev_involutive.
  apply lstrip_by_keeps; [exact Hc|]. apply -> in_rev.
  now apply lstrip_by_keeps.
Qed.

Section RetrieveEvidenceDict.

Variable Index : Type.
Variable search_index : Index -> str -> Z -> result (list passage).
Variable index : Index.
Variable top_k : Z.

(** A line that can write an entry writes it. *)
Lemma retrieve_evidence_line_writes (evidence : evidence_dict)
    (line key : str) (v : list passage) :
  written_by Index search_index index top_k line key v ->
  retrieve_evidence_line Index search_index index top_k evidence line
  = Ok (dict_set key v evidence).
Proof.
  intros (cid & query & Hs & -> & Hlen & Hr).
  unfold retrieve_evidence_line.
  assert (Hc : contains (lit ":") line = true).
  { destruct (contains (lit ":") line) eqn:E; [reflexivity|].
    apply (split_once_aux_contains (lit ":") [] line) in E.
    unfold split_once in Hs. congruence. }
  rewrite Hc.
  assert (Hne : Nat.eqb (List.length (strip line)) 0 = false).
  { apply Nat.eqb_neq. intros E.
    apply contains_char_In in Hc.
    apply (strip_by_keeps is_space) in Hc; [|reflexivity].
    fold (strip line) in Hc. destruct (strip line); [contradiction | discriminate]. }
  rewrite Hne, Hs. cbn [negb andb].
  apply Nat.ltb_lt in Hlen. rewrite Hlen.
  destruct (List.length (strip query)) eqn:El; [discriminate|].
  cbn [Nat.eqb negb andb]. rewrite Hr. reflexivity.
Qed.

Lemma written_by_once (line key key' : str) (v v' : list passage) :
  written_by Index search_index index top_k line key v ->
  written_by Index search_index index top_k line key' v' ->
  key = key' /\ v = v'.
Proof.
  intros (cid & query & Hs & -> & _ & Hr) (cid' & query' & Hs' & -> & _ & Hr').
  rewrite Hs in Hs'. injection Hs' as <- <-.
  rewrite Hr in Hr'. injection Hr' as <-. now split.
Qed.

(** Lines that write nothing under [key] leave its entry as it is. *)
Lemma retrieve_evidence_loop_untouched (lines : list str)
    (evidence evidence' : evidence_dict) (key : str) :
  (forall line v, In line lines ->
                  ~ written_by Index search_index index top_k line key v) ->
  retrieve_evidence_loop Index search_index index top_k evidence lines = Ok evidence' ->
  dict_get key evidence' = dict_get key evidence.
Proof.
  revert evidence; induction lines as [|line rest IH]; intros evidence Hno.
  - now intros [= <-].
  - cbn [retrieve_evidence_loop].
    destruct (retrieve_evidence_line_ok Index search_index index top_k evidence line)
      as [E | (key0 & v0 & Hw & E)]; rewrite E; cbn [bind]; intros Hrun.
    + apply IH; [|exact Hrun]. intros l v Hin. apply Hno. now right.
    + rewrite (IH _ (fun l v Hin => Hno l v (or_intror Hin)) Hrun).
      apply dict_get_set_other. intros ->. apply (Hno line v0); [now left | exact Hw].
Qed.

Lemma retrieve_evidence_loop_app (l1 l2 : list str) (evidence : evidence_dict) :
  retrieve_evidence_loop Index search_index index top_k evidence (l1 ++ l2)
  = (evidence1 <- retrieve_evidence_loop Index search_index index top_k evidence l1 ;;
     retrieve_evidence_loop Index search_index index top_k evidence1 l2).
Proof.
  revert evidence; induction l1 as [|line rest IH]; intros evidence; [reflexivity|].
  cbn [app retrieve_evidence_loop].
  destruct (retrieve_evidence_line Index search_index index top_k evidence line);
    cbn [bind]; [apply IH | reflexivity].
Qed.

End RetrieveEvidenceDict.

(** The last line that writes under a claim identifier decides its entry:
    when a line of the query text writes [v] under [key] and no later line
    writes under [key], the mapping returned holds [v] under [key]. *)
Theorem retrieve_evidence_last_line_wins (Index : Type)
    (search_index : Index -> str -> Z -> result (list passage))
    (query_text : str) (index : Index) (top_k : Z)
    (before after : list str) (line key : str) (v : list passage) :
  split [NL] query_text = before ++ line :: after ->
  written_by Index search_index index top_k line key v ->
  (forall later v', In later after ->
                    ~ written_by Index search_index index top_k later key v') ->
  exists evidence,
    retrieve_evidence Index search_index query_text index top_k = Ok evidence
    /\ dict_get key evidence = Some v.
Proof.
  intros Hlines Hw Hlater.
  destruct (retrieve_evidence_loop_ok Index search_index index top_k
              (split [NL] query_text) [] (fun _ _ => True)
              (fun _ _ _ => I) (fun _ _ _ _ _ => I))
    as (evidence & Hrun & _).
  fold (retrieve_evidence Index search_index query_text index top_k) in Hrun.
  exists evidence. split; [exact Hrun|].
  unfold retrieve_evidence in Hrun. rewrite Hlines in Hrun.
  rewrite retrieve_evidence_loop_app in Hrun.
  destruct (retrieve_evidence_loop Index search_index index top_k [] before)
    as [evidence1|e]; cbn [bind] in Hrun; [|discriminate].
  cbn [retrieve_evidence_loop] in Hrun.
  rewrite (retrieve_evidence_line_writes _ _ _ _ _ _ _ _ Hw) in Hrun.
  cbn [bind] in Hrun.
  rewrite (retrieve_evidence_loop_untouched _ _ _ _ _ _ _ _ Hlater Hrun).
  apply dict_get_set_same.
Qed.

Lemma retrieve_evidence_last_line_wins_witness :
  split [NL] (lit "Claim 1: first query" ++ [NL] ++ lit "Claim 1: second query")
  = [lit "Claim 1: first query"] ++ lit "Claim 1: second query" :: []
  /\ written_by unit (fun _ query _ => Ok [ {| text := query |} ]) tt 5
       (lit "Claim 1: second query") (lit "Claim 1")
       [ {| text := lit "second query" |} ]
  /\ exists evidence,
       retrieve_evidence unit (fun _ query _ => Ok [ {| text := query |} ])
         (lit "Claim 1: first query" ++ [NL] ++ lit "Claim 1: second query") tt 5
       = Ok evidence
       /\ dict_get (lit "Claim 1") evidence = Some [ {| text := lit "second query" |} ].
Proof.
  assert (Hw : written_by unit (fun _ query _ => Ok [ {| text := query |} ]) tt 5
                 (lit "Claim 1: second query") (lit "Claim 1")
                 [ {| text := lit "second query" |} ]).
  { exists (lit "Claim 1"), (lit " second query").
    split; [reflexivity|]. split; [reflexivity|]. split; [simpl; lia | reflexivity]. }
  split; [reflexivity|]. split; [exact Hw|].
  apply (retrieve_evidence_last_line_wins unit
           (fun _ query _ => Ok [ {| text := query |} ])
           (lit "Claim 1: first query" ++ [NL] ++ lit "Claim 1: second query") tt 5
           [lit "Claim 1: first query"] [] (lit "Claim 1: second query")
           (lit "Claim 1") [ {| text := lit "second query" |} ]);
    [reflexivity | exact Hw | intros later v' []].
Defined.

(** ** [search_index] and [build_vector_index] *)

Lemma distinct_In (x : str) (l : list str) : In x (distinct l) <-> In x l.
Proof.
  induction l as [|y l IH]; cbn [distinct]; [tauto|].
  destruct (existsb (str_eqb y) l) eqn:E.
  - rewrite IH. split; [now right|]. intros [->|H]; [|exact H].
    apply existsb_exists in E as (z & Hz & Ez). apply str_eqb_eq in Ez. now subst z.
  - cbn [In]. now rewrite IH.
Qed.

Lemma keyword_score_positive (query_words : list str) (chunk_lower : str) :
  (0 < keyword_score query_words chunk_lower)%nat ->
  exists word, In word query_words /\ contains word chunk_lower = true.
Proof.
  unfold keyword_score. intros H.
  destruct (filter (fun word => contains word chunk_lower) query_words)
    as [|word rest] eqn:E; [simpl in H; lia|].
  assert (Hin : In word (filter (fun word => contains word chunk_lower) query_words)).
  { rewrite E. now left. }
  apply filter_In in Hin. now exists word.
Qed.

Lemma insert_desc_In (e x : scored) (l : list scored) :
  In e (insert_desc x l) <-> e = x \/ In e l.
Proof.
  induction l as [|y l IH]; cbn [insert_desc].
  - simpl. intuition.
  - destruct (scored_ltb x y); cbn [In]; [rewrite IH|]; intuition.
Qed.

Lemma sort_desc_In (e : scored) (l : list scored) :
  In e (sort_desc l) <-> In e l.
Proof.
  induction l as [|x l IH]; [tauto|].
  unfold sort_desc in *. cbn [fold_right]. rewrite insert_desc_In, IH.
  cbn [In]. intuition.
Qed.

Lemma scored_ltb_true (a b : scored) :
  scored_ltb a b = true -> (scored_score a <= scored_score b)%nat.
Proof.
  unfold scored_ltb. intros H. apply orb_true_iff in H as [H|H].
  - apply Nat.ltb_lt in H. lia.
  - apply andb_true_iff in H as [H _]. apply Nat.eqb_eq in H. lia.
Qed.

Lemma scored_ltb_false (a b : scored) :
  scored_ltb a b = false -> (scored_score b <= scored_score a)%nat.
Proof.
  unfold scored_ltb. intros H. apply orb_false_iff in H as [H _].
  apply Nat.ltb_ge in H. exact H.
Qed.

Lemma insert_desc_sorted (x : scored) (l : list scored) :
  StronglySorted (fun a b => (scored_score b <= scored_score a)%nat) l ->
  StronglySorted (fun a b => (scored_score b <= scored_score a)%nat) (insert_desc x l).
Proof.
  induction 1 as [|y l Hs IH Hy]; cbn [insert_desc].
  - repeat constructor.
  - destruct (scored_ltb x y) eqn:E.
    + constructor; [exact IH|].
      apply Forall_forall. intros e He. apply insert_desc_In in He as [->|He].
      * now apply scored_ltb_true.
      * rewrite Forall_forall in Hy. now apply Hy.
    + apply scored_ltb_false in E.
      constructor; [now constructor|].
      constructor; [exact E|].
      eapply Forall_impl; [|exact Hy]. intros e He. simpl in *. lia.
Qed.

Lemma sort_desc_sorted (l : list scored) :
  StronglySorted (fun a b => (scored_score b <= scored_score a)%nat) (sort_desc l).
Proof.
  induction l as [|x l IH]; [constructor|].
  unfold sort_desc in *. cbn [fold_right]. now apply insert_desc_sorted.
Qed.

Lemma StronglySorted_app_order {A : Type} (R : A -> A -> Prop) (a b : list A) :
  StronglySorted R (a ++ b) -> forall x y, In x a -> In y b -> R x y.
Proof.
  induction a as [|h a IH]; cbn [app]; intros Hs x y Hx Hy; [contradiction|].
  apply StronglySorted_inv in Hs as [Hs Hh].
  destruct Hx as [->|Hx].
  - rewrite Forall_forall in Hh. apply Hh. apply in_or_app. now right.
  - now apply (IH Hs).
Qed.

Lemma slice_from_start {A : Type} (l : list A) (k : Z) :
  (0 <= k)%Z -> slice l 0 k = firstn (Z.to_nat k) l.
Proof.
  intros Hk. unfold slice, slice_index.
  destruct (k <? 0)%Z eqn:E; [apply Z.ltb_lt in E; lia|].
  change (0 <? 0)%Z with false. cbv iota.
  replace (Z.max 0 (Z.min (Z.of_nat (List.length l)) 0)) with 0%Z by lia.
  cbn [Z.to_nat skipn]. rewrite Z.sub_0_r.
  destruct (Z_le_gt_dec k (Z.of_nat (List.length l))) as [Hle|Hgt].
  - f_equal. lia.
  - rewrite !firstn_all2 by lia. reflexivity.
Qed.

Section RetrieveEvidencePresent.

Variable Index : Type.
Variable search_index : Index -> str -> Z -> result (list passage).
Variable index : Index.
Variable top_k : Z.

(** An entry once written stays, and a line that can write does. *)
Lemma retrieve_evidence_loop_present (lines : list str)
    (evidence evidence' : evidence_dict) (key : str) :
  retrieve_evidence_loop Index search_index index top_k evidence lines = Ok evidence' ->
  (dict_get key evidence <> None
   \/ exists line v,
        In line lines /\ written_by Index search_index index top_k line key v) ->
  dict_get key evidence' <> None.
Proof.
  revert evidence; induction lines as [|l rest IH]; intros evidence.
  - intros [= <-] [H|(line & v & [] & _)]. exact H.
  - cbn [retrieve_evidence_loop].
    intros Hrun [Hhere | (line & v & [->|Hin] & Hw)].
    + destruct (retrieve_evidence_line_ok Index search_index index top_k evidence l)
        as [E | (key0 & v0 & _ & E)]; rewrite E in Hrun; cbn [bind] in Hrun.
      * apply (IH _ Hrun). now left.
      * apply (IH _ Hrun). left.
        destruct (list_eq_dec N.eq_dec key0 key) as [->|Hne].
        -- rewrite dict_get_set_same. discriminate.
        -- now rewrite (dict_get_set_other _ _ _ _ Hne).
    + rewrite (retrieve_evidence_line_writes _ _ _ _ evidence _ _ _ Hw) in Hrun.
      cbn [bind] in Hrun. apply (IH _ Hrun). left.
      rewrite dict_get_set_same. discriminate.
    + destruct (retrieve_evidence_line Index search_index index top_k evidence l)
        as [evidence1|e]; cbn [bind] in Hrun; [|discriminate].
      apply (IH _ Hrun). right. now exists line, v.
Qed.

End RetrieveEvidencePresent.

Section RetrievalFacts.

Variable lower : str -> str.
Variable Handle : Type.
Variable pathway_build : list str -> result Handle.
Variable pathway_query : Handle -> str -> Z -> result (list passage).
Variables PATHWAY_AVAILABLE EMBEDDINGS_AVAILABLE : bool.

Lemma score_chunks_sound (query_words : list str) (chunks : list str) (i : nat)
    (e : scored) :
  In e (score_chunks lower query_words i chunks) ->
  In (scored_chunk e) chunks /\ scored_by lower query_words e.
Proof.
  revert i; induction chunks as [|chunk rest IH]; intros i; cbn [score_chunks];
    [contradiction|].
  destruct (0 <? keyword_score query_words (lower chunk))%nat eqn:E.
  - intros [<-|H].
    + apply Nat.ltb_lt in E. split; [now left|]. split; [reflexivity | exact E].
    + destruct (IH _ H) as [H1 H2]. split; [now right | exact H2].
  - intros H. destruct (IH _ H) as [H1 H2]. split; [now right | exact H2].
Qed.

Lemma score_chunks_complete (query_words : list str) (chunks : list str) (i : nat)
    (chunk : str) :
  In chunk chunks ->
  (0 < keyword_score query_words (lower chunk))%nat ->
  exists e,
    In e (score_chunks lower query_words i chunks) /\ scored_chunk e = chunk.
Proof.
  revert i; induction chunks as [|c rest IH]; intros i; [contradiction|].
  intros [->|Hin] Hpos; cbn [score_chunks].
  - apply Nat.ltb_lt in Hpos. rewrite Hpos. eexists. split; [now left | reflexivity].
  - destruct (IH (S i) Hin Hpos) as (e & He & Hc).
    exists e. split; [|exact Hc].
    destruct (0 <? keyword_score query_words (lower c))%nat; [now right | exact He].
Qed.

(** The keyword search returns chunks of the index only, each one
    containing, in lower case, a word of the query in lower case; a query
    without words gets nothing. *)
Theorem search_fallback_sound (chunks : list str) (query : str) (k : Z)
    (p : passage) :
  In p (search_fallback lower chunks query k) ->
  In (text p) chunks
  /\ exists word,
       In word (split_ws (lower query))
       /\ contains word (lower (text p)) = true.
Proof.
  unfold search_fallback. intros H.
  apply in_map_iff in H as (e & <- & He). cbn [text].
  apply slice_incl, sort_desc_In, score_chunks_sound in He as [Hc [Hs Hpos]].
  split; [exact Hc|].
  rewrite Hs in Hpos.
  apply keyword_score_positive in Hpos as (word & Hw & Hin).
  exists word. split; [now apply distinct_In | exact Hin].
Qed.


(** For [k >= 0] the keyword search returns at most [k] passages, and they
    are the best: a chunk of the index that is not returned has no more
    query words in it than any chunk that is returned. *)
Theorem search_fallback_top_k (chunks : list str) (query : str) (k : Z) :
  (0 <= k)%Z ->
  (Z.of_nat (List.length (search_fallback lower chunks query k)) <= k)%Z
  /\ forall p chunk,
       In p (search_fallback lower chunks query k) ->
       In chunk chunks ->
       ~ In chunk (map text (search_fallback lower chunks query k)) ->
       (keyword_score (distinct (split_ws (lower query))) (lower chunk)
        <= keyword_score (distinct (split_ws (lower query))) (lower (text p)))%nat.
Proof.
  intros Hk. unfold search_fallback.
  set (query_words := distinct (split_ws (lower query))).
  set (ranked := sort_desc (score_chunks lower query_words 0 chunks)).
  split.
  - rewrite length_map. pose proof (slice_length ranked 0 k ltac:(lia) Hk) as H.
    now rewrite Z.add_0_l in H.
  - intros p chunk Hp Hchunk Hout.
    rewrite slice_from_start in * by exact Hk.
    apply in_map_iff in Hp as (e & <- & He). cbn [text].
    destruct (Nat.eq_dec (keyword_score query_words (lower chunk)) 0) as [Hz|Hnz];
      [lia|].
    destruct (score_chunks_complete query_words chunks 0 chunk Hchunk ltac:(lia))
      as (e' & He' & Hc').
    apply sort_desc_In in He'. fold ranked in He'.
    rewrite <- (firstn_skipn (Z.to_nat k) ranked) in He'.
    apply in_app_or in He' as [Hin|Hrest].
    + exfalso. apply Hout. rewrite map_map. apply in_map_iff.
      exists e'. split; [exact Hc' | exact Hin].
    + pose proof (sort_desc_sorted (score_chunks lower query_words 0 chunks)) as Hs.
      fold ranked in Hs. rewrite <- (firstn_skipn (Z.to_nat k) ranked) in Hs.
      pose proof (StronglySorted_app_order _ _ _ Hs e e' He Hrest) as Hord.
      cbv beta in Hord.
      assert (H1 : In e ranked).
      { rewrite <- (firstn_skipn (Z.to_nat k) ranked). apply in_or_app. now left. }
      assert (H2 : In e' ranked).
      { rewrite <- (firstn_skipn (Z.to_nat k) ranked). apply in_or_app. now right. }
      apply sort_desc_In, score_chunks_sound in H1 as [_ [E1 _]].
      apply sort_desc_In, score_chunks_sound in H2 as [_ [E2 _]].
      rewrite Hc' in E2. lia.
Qed.



(** [build_vector_index] ends and raises nothing, whatever the text and
    whatever Pathway does.  The fallback index holds the chunks of the
    text, cut every 800 words, 1000 words each; a Pathway index is
    returned only when both libraries are there and the index was built
    from those chunks. *)
Theorem build_vector_index_total (novel_text : str) :
  exists index,
    build_vector_index Handle pathway_build PATHWAY_AVAILABLE EMBEDDINGS_AVAILABLE
      novel_text = Some (Ok index)
    /\ match index with
       | FallbackIndex chunks =>
           chunks = chunks_by_step (split_ws novel_text) 1000 200
       | PathwayIndex handle =>
           PATHWAY_AVAILABLE = true /\ EMBEDDINGS_AVAILABLE = true
           /\ pathway_build (chunks_by_step (split_ws novel_text) 1000 200)
              = Ok handle
       end.
Proof.
  unfold build_vector_index.
  rewrite (chunk_text_returns novel_text 1000 200) by lia.
  destruct PATHWAY_AVAILABLE, EMBEDDINGS_AVAILABLE; cbn [negb orb];
    try (eexists; split; reflexivity).
  destruct (pathway_build (chunks_by_step (split_ws novel_text) 1000 200))
    as [handle|e] eqn:E; cbn [bind try_except].
  - eexists; split; [reflexivity|]. cbv iota. repeat split.
  - eexists; split; reflexivity.
Qed.

(** [search_index] raises nothing, whatever the index and whatever Pathway
    does: a failed Pathway query gives the empty list. *)
Lemma search_index_never_raises (index : vector_index Handle) (query : str) (k : Z) :
  exists passages,
    search_index lower Handle pathway_query index query k = Ok passages.
Proof.
  destruct index as [chunks|handle]; cbn [search_index].
  - eexists; reflexivity.
  - destruct (pathway_query handle query k); cbn [try_except]; eexists; reflexivity.
Qed.

(** With the search of retrieval.py, no line with a claim identifier and a
    query of more than two characters is lost: its identifier is a key of
    the mapping [retrieve_evidence] returns. *)
Theorem retrieve_evidence_with_search_index (index : vector_index Handle)
    (query_text line cid query : str) (top_k : Z) :
  In line (split [NL] query_text) ->
  split_once (lit ":") line = Some (cid, query) ->
  (2 < List.length (strip query))%nat ->
  exists evidence passages,
    retrieve_evidence (vector_index Handle)
      (search_index lower Handle pathway_query) query_text index top_k
    = Ok evidence
    /\ dict_get (strip cid) evidence = Some passages.
Proof.
  intros Hin Hs Hlen.
  destruct (retrieve_evidence_loop_ok (vector_index Handle)
              (search_index lower Handle pathway_query) index top_k
              (split [NL] query_text) [] (fun _ _ => True)
              (fun _ _ _ => I) (fun _ _ _ _ _ => I))
    as (evidence & Hrun & _).
  exists evidence.
  destruct (search_index_never_raises index (strip query) top_k) as [ps Hps].
  assert (Hw : written_by (vector_index Handle)
                 (search_index lower Handle pathway_query) index top_k
                 line (strip cid) ps).
  { exists cid, query. auto. }
  pose proof (retrieve_evidence_loop_present _ _ _ _ _ _ _ (strip cid) Hrun
                (or_intror (ex_intro _ line (ex_intro _ ps (conj Hin Hw)))))
    as Hpresent.
  destruct (dict_get (strip cid) evidence) as [passages|] eqn:Eg.
  - exists passages. now split.
  - contradiction.
Qed.

End RetrievalFacts.

Lemma search_fallback_sound_witness :
  In {| text := lit "The Sea" |}
    (search_fallback (fun s => s) [lit "The Sea"; lit "A hill"] (lit "Sea Sea") 5)
  /\ (In (text {| text := lit "The Sea" |}) [lit "The Sea"; lit "A hill"]
      /\ exists word,
           In word (split_ws ((fun s => s) (lit "Sea Sea")))
           /\ contains word ((fun s => s) (text {| text := lit "The Sea" |})) = true).
Proof.
  assert (H : In {| text := lit "The Sea" |}
                (search_fallback (fun s => s) [lit "The Sea"; lit "A hill"]
                   (lit "Sea Sea") 5)) by (now left).
  split; [exact H|].
  exact (search_fallback_sound (fun s => s) [lit "The Sea"; lit "A hill"]
           (lit "Sea Sea") 5 {| text := lit "The Sea" |} H).
Defined.

Lemma search_fallback_top_k_witness :
  (0 <= 1)%Z
  /\ ((Z.of_nat (List.length
                   (search_fallback (fun s => s)
                      [lit "a hill"; lit "the sea and the hill"] (lit "sea hill") 1))
       <= 1)%Z
      /\ forall p chunk,
           In p (search_fallback (fun s => s)
                   [lit "a hill"; lit "the sea and the hill"] (lit "sea hill") 1) ->
           In chunk [lit "a hill"; lit "the sea and the hill"] ->
           ~ In chunk
               (map text
                  (search_fallback (fun s => s)
                     [lit "a hill"; lit "the sea and the hill"] (lit "sea hill") 1)) ->
           (keyword_score (distinct (split_ws ((fun s => s) (lit "sea hill"))))
              ((fun s => s) chunk)
            <= keyword_score (distinct (split_ws ((fun s => s) (lit "sea hill"))))
                 ((fun s => s) (text p)))%nat).
Proof.
  split; [lia|].
  apply (search_fallback_top_k (fun s => s)
           [lit "a hill"; lit "the sea and the hill"] (lit "sea hill") 1). lia.
Defined.

Example search_fallback_ranking :
  search_fallback (fun s => s)
    [lit "a hill"; lit "the sea and the hill"; lit "nothing"; lit "hill, hill"]
    (lit "sea hill sea") 5
  = [ {| text := lit "the sea and the hill" |};
      {| text := lit "hill, hill" |};
      {| text := lit "a hill" |} ].
Proof. reflexivity. Qed.

Lemma retrieve_evidence_with_search_index_witness :
  In (lit "Claim 1: the sea") (split [NL] (lit "Claim 1: the sea"))
  /\ split_once (lit ":") (lit "Claim 1: the sea") = Some (lit "Claim 1", lit " the sea")
  /\ (2 < List.length (strip (lit " the sea")))%nat
  /\ exists evidence passages,
       retrieve_evidence (vector_index unit)
         (search_index (fun s => s) unit (fun _ _ _ => Raise (RuntimeError "no index")))
         (lit "Claim 1: the sea") (FallbackIndex [lit "by the sea"]) 5
       = Ok evidence
       /\ dict_get (strip (lit "Claim 1")) evidence = Some passages.
Proof.
  split; [now left|]. split; [reflexivity|]. split; [simpl; lia|].
  apply (retrieve_evidence_with_search_index (fun s => s) unit
           (fun _ _ _ => Raise (RuntimeError "no index"))
           (FallbackIndex [lit "by the sea"])
           (lit "Claim 1: the sea") (lit "Claim 1: the sea")
           (lit "Claim 1") (lit " the sea") 5);
    [now left | reflexivity | simpl; lia].
Defined.

(** ** [call_llm] of llm_hf.py *)

Section CallLlmLoop.

Variable network : nat -> post_outcome.

Lemma call_llm_loop_success (fuel : nat) (retry_count : Z) (posts : nat)
    (slept : Z) (t : str) :
  (retry_count < max_retries)%Z ->
  answer_of (network posts) = Some t ->
  call_llm_loop (S fuel) network retry_count posts slept
  = Some (Ok t, S posts, slept).
Proof.
  intros Hr Ha. cbn [call_llm_loop].
  apply Z.ltb_lt in Hr. rewrite Hr.
  unfold answer_of in Ha.
  destruct (network posts) as [code [json|e]| |e]; try discriminate.
  destruct (code =? 200)%Z; [|discriminate].
  destruct json; now injection Ha as <-.
Qed.

(** A post that did not succeed is followed by another one, after 5 or 20
    seconds, as long as fewer than two retries were counted. *)
Lemma call_llm_loop_retry (fuel : nat) (retry_count : Z) (posts : nat) (slept : Z) :
  (retry_count < max_retries - 1)%Z ->
  answer_of (network posts) = None ->
  exists d,
    (d = 5 \/ d = 20)%Z
    /\ call_llm_loop (S fuel) network retry_count posts slept
       = call_llm_loop fuel network (retry_count + 1)%Z (S posts) (slept + d)%Z.
Proof.
  intros Hr Ha. cbn [call_llm_loop].
  assert (Hr1 : (retry_count <? max_retries)%Z = true)
    by (apply Z.ltb_lt; unfold max_retries in *; lia).
  apply Z.ltb_lt in Hr. rewrite Hr1, Hr.
  unfold answer_of in Ha.
  destruct (network posts) as [code [json|e]| |e].
  - destruct (code =? 200)%Z; [discriminate|].
    destruct (code =? 503)%Z; [exists 20%Z | exists 5%Z]; auto.
  - destruct (code =? 200)%Z; [exists 5%Z; auto|].
    destruct (code =? 503)%Z; [exists 20%Z | exists 5%Z]; auto.
  - exists 5%Z; auto.
  - exists 5%Z; auto.
Qed.

(** The third post, when it does not succeed, ends the call with an
    exception. *)
Lemma call_llm_loop_last (fuel : nat) (posts : nat) (slept : Z) :
  answer_of (network posts) = None ->
  exists e slept',
    call_llm_loop (S (S fuel)) network 2 posts slept = Some (Raise e, S posts, slept')
    /\ (slept <= slept' <= slept + 20)%Z.
Proof.
  intros Ha. cbn [call_llm_loop].
  change (2 <? max_retries)%Z with true. change (2 <? max_retries - 1)%Z with false.
  change (2 + 1 <? max_retries)%Z with false. cbv iota.
  unfold answer_of in Ha.
  destruct (network posts) as [code [json|e]| |e].
  - destruct (code =? 200)%Z; [discriminate|].
    destruct (code =? 503)%Z; do 2 eexists; (split; [reflexivity | lia]).
  - destruct (code =? 200)%Z; [do 2 eexists; (split; [reflexivity | lia])|].
    destruct (code =? 503)%Z; do 2 eexists; (split; [reflexivity | lia]).
  - do 2 eexists; (split; [reflexivity | lia]).
  - do 2 eexists; (split; [reflexivity | lia]).
Qed.

(** The loop started at [retry_count = 0]: the answer of the first of
    three posts that succeeds, or an exception after the third. *)
Lemma call_llm_loop_outcome (fuel : nat) :
  (4 <= fuel)%nat ->
  (exists i t slept,
      (i < 3)%nat
      /\ answer_of (network i) = Some t
      /\ (forall j, (j < i)%nat -> answer_of (network j) = None)
      /\ call_llm_loop fuel network 0 0 0 = Some (Ok t, S i, slept)
      /\ (0 <= slept <= 20 * Z.of_nat i)%Z)
  \/ (exists e slept,
         (forall j, (j < 3)%nat -> answer_of (network j) = None)
         /\ call_llm_loop fuel network 0 0 0 = Some (Raise e, 3%nat, slept)
         /\ (0 <= slept <= 60)%Z).
Proof.
  intros Hf. destruct fuel as [|[|[|[|fuel]]]]; try lia.
  destruct (answer_of (network 0)) as [t0|] eqn:E0.
  { left. exists 0%nat, t0, 0%Z. repeat split; try lia; auto.
    now apply call_llm_loop_success. }
  destruct (call_llm_loop_retry (S (S (S fuel))) 0 0 0 ltac:(unfold max_retries; lia) E0)
    as (d0 & Hd0 & R0).
  destruct (answer_of (network 1)) as [t1|] eqn:E1.
  { left. exists 1%nat, t1, (0 + d0)%Z. repeat split; try lia; auto.
    - intros j Hj. now replace j with 0%nat by lia.
    - rewrite R0. apply call_llm_loop_success; [unfold max_retries; lia | exact E1]. }
  destruct (call_llm_loop_retry (S (S fuel)) (0 + 1) 1 (0 + d0)
              ltac:(unfold max_retries; lia) E1)
    as (d1 & Hd1 & R1).
  destruct (answer_of (network 2)) as [t2|] eqn:E2.
  { left. exists 2%nat, t2, (0 + d0 + d1)%Z. repeat split; try lia; auto.
    - intros j Hj. destruct j as [|[|j]]; auto; lia.
    - rewrite R0, R1. apply call_llm_loop_success; [unfold max_retries; lia | exact E2]. }
  right.
  destruct (call_llm_loop_last fuel 2 (0 + d0 + d1) E2) as (e & slept' & R2 & Hs).
  exists e, slept'. repeat split; try lia.
  - intros j Hj. destruct j as [|[|[|j]]]; auto; lia.
  - rewrite R0, R1. exact R2.
Qed.

End CallLlmLoop.

(** [call_llm] ends whatever the network does: it posts at most three
    times and sleeps at most 60 seconds in all; without a token it posts
    nothing. *)
Theorem call_llm_bounded (HF_API_TOKEN : option str)
    (network : str -> Z -> nat -> post_outcome) (fuel : nat)
    (prompt : str) (max_new_tokens : Z) :
  (4 <= fuel)%nat ->
  exists outcome posts slept,
    call_llm HF_API_TOKEN network fuel prompt max_new_tokens
    = Some (outcome, posts, slept)
    /\ (posts <= 3)%nat /\ (0 <= slept <= 60)%Z
    /\ (HF_API_TOKEN = None \/ HF_API_TOKEN = Some [] -> posts = 0%nat).
Proof.
  intros Hf. unfold call_llm.
  destruct HF_API_TOKEN as [[|c token]|].
  - do 3 eexists. split; [reflexivity|]. repeat split; try lia.
  - destruct (call_llm_loop_outcome (network prompt max_new_tokens) fuel Hf)
      as [(i & t & slept & Hi & _ & _ & Hrun & Hs) | (e & slept & _ & Hrun & Hs)];
      rewrite Hrun; do 3 eexists; (split; [reflexivity|]);
      repeat split; try lia; intros [H|H]; discriminate.
  - do 3 eexists. split; [reflexivity|]. repeat split; try lia.
Qed.

Lemma call_llm_bounded_witness :
  (4 <= 4)%nat
  /\ exists outcome posts slept,
       call_llm (Some (lit "hf_token")) (fun _ _ _ => Response 503 (Raise (ValueError "")))
         4 (lit "prompt") 512
       = Some (outcome, posts, slept)
       /\ (posts <= 3)%nat /\ (0 <= slept <= 60)%Z
       /\ (Some (lit "hf_token") = None \/ Some (lit "hf_token") = Some [] -> posts = 0%nat).
Proof.
  split; [lia|].
  apply (call_llm_bounded (Some (lit "hf_token"))
           (fun _ _ _ => Response 503 (Raise (ValueError ""))) 4 (lit "prompt") 512).
  lia.
Defined.

(** With a token, [call_llm] returns the answer of the first of its three
    posts that succeeds (status 200 and a readable body), whatever the
    posts before it did: a generated text comes back stripped. *)
Theorem call_llm_first_success (token : str)
    (network : str -> Z -> nat -> post_outcome) (fuel : nat)
    (prompt : str) (max_new_tokens : Z) (i : nat) (t : str) :
  (4 <= fuel)%nat -> token <> [] -> (i < 3)%nat ->
  answer_of (network prompt max_new_tokens i) = Some t ->
  (forall j, (j < i)%nat -> answer_of (network prompt max_new_tokens j) = None) ->
  exists slept,
    call_llm (Some token) network fuel prompt max_new_tokens
    = Some (Ok t, S i, slept).
Proof.
  intros Hf Htoken Hi Ha Hbefore. unfold call_llm.
  destruct token as [|c token]; [congruence|].
  destruct (call_llm_loop_outcome (network prompt max_new_tokens) fuel Hf)
    as [(i' & t' & slept & Hi' & Ha' & Hb' & Hrun & _) | (e & slept & Hnone & _)].
  - assert (i' = i).
    { destruct (Nat.lt_trichotomy i' i) as [H|[H|H]]; [|exact H|].
      - rewrite (Hbefore _ H) in Ha'. discriminate.
      - rewrite (Hb' _ H) in Ha. discriminate. }
    subst i'. rewrite Ha in Ha'. injection Ha' as <-. now exists slept.
  - rewrite (Hnone _ Hi) in Ha. discriminate.
Qed.

Lemma call_llm_first_success_witness :
  (4 <= 4)%nat /\ lit "hf_token" <> [] /\ (1 < 3)%nat
  /\ answer_of
       ((fun _ _ n => match n with
                      | O => Timeout
                      | _ => Response 200 (Ok (GeneratedText (lit " Paris ")))
                      end) (lit "prompt") 512%Z 1%nat)
     = Some (lit "Paris")
  /\ exists slept,
       call_llm (Some (lit "hf_token"))
         (fun _ _ n => match n with
                       | O => Timeout
                       | _ => Response 200 (Ok (GeneratedText (lit " Paris ")))
                       end) 4 (lit "prompt") 512
       = Some (Ok (lit "Paris"), 2%nat, slept).
Proof.
  split; [lia|]. split; [discriminate|]. split; [lia|]. split; [reflexivity|].
  apply (call_llm_first_success (lit "hf_token")
           (fun _ _ n => match n with
                         | O => Timeout
                         | _ => Response 200 (Ok (GeneratedText (lit " Paris ")))
                         end) 4 (lit "prompt") 512 1 (lit "Paris"));
    [lia | discriminate | lia | reflexivity |].
  intros j Hj. now replace j with 0%nat by lia.
Defined.

(** With a token, when none of the three posts succeeds, [call_llm] raises
    after the third and posts no more. *)
Theorem call_llm_gives_up (token : str)
    (network : str -> Z -> nat -> post_outcome) (fuel : nat)
    (prompt : str) (max_new_tokens : Z) :
  (4 <= fuel)%nat -> token <> [] ->
  (forall j, (j < 3)%nat -> answer_of (network prompt max_new_tokens j) = None) ->
  exists e slept,
    call_llm (Some token) network fuel prompt max_new_tokens
    = Some (Raise e, 3%nat, slept).
Proof.
  intros Hf Htoken Hnone. unfold call_llm.
  destruct token as [|c token]; [congruence|].
  destruct (call_llm_loop_outcome (network prompt max_new_tokens) fuel Hf)
    as [(i & t & slept & Hi & Ha & _) | (e & slept & _ & Hrun & _)].
  - rewrite (Hnone _ Hi) in Ha. discriminate.
  - now exists e, slept.
Qed.

Lemma call_llm_gives_up_witness :
  (4 <= 4)%nat /\ lit "hf_token" <> []
  /\ (forall j, (j < 3)%nat ->
                answer_of ((fun _ _ _ => Response 404 (Raise (ValueError "")))
                             (lit "prompt") 512%Z j) = None)
  /\ exists e slept,
       call_llm (Some (lit "hf_token"))
         (fun _ _ _ => Response 404 (Raise (ValueError ""))) 4 (lit "prompt") 512
       = Some (Raise e, 3%nat, slept).
Proof.
  split; [lia|]. split; [discriminate|]. split; [reflexivity|].
  apply (call_llm_gives_up (lit "hf_token")
           (fun _ _ _ => Response 404 (Raise (ValueError ""))) 4 (lit "prompt") 512);
    [lia | discriminate | reflexivity].
Defined.

Example call_llm_three_busy_answers :
  call_llm (Some (lit "hf_token")) (fun _ _ _ => Response 503 (Raise (ValueError "")))
    4 (lit "prompt") 512
  = Some (Raise (RuntimeError "Max retries exceeded"), 3%nat, 60%Z).
Proof. reflexivity. Qed.

Example call_llm_error_on_third_post :
  call_llm (Some (lit "hf_token")) (fun _ _ _ => PostRaised (OSError "connection refused"))
    4 (lit "prompt") 512
  = Some (Raise (OSError "connection refused"), 3%nat, 10%Z).
Proof. reflexivity. Qed.

(** ** [LLMClient] of llm.py *)

Lemma last_snoc {A : Type} (l : list A) (x d : A) : last (l ++ [x]) d = x.
Proof.
  induction l as [|y l IH]; [reflexivity|].
  cbn [app]. destruct (l ++ [x]) eqn:E.
  - destruct l; discriminate.
  - cbn [last]. exact IH.
Qed.

(** [chat] answers from the last message alone, and from its first 50
    characters: two conversations whose last messages agree on them get
    the same answer from the same provider, whatever came before and
    whatever the key and the model are. *)
Theorem chat_reads_last_message_start (self self' : LLMClient)
    (earlier earlier' : list (dict str)) (message message' : dict str)
    (content content' : str) :
  provider self = provider self' ->
  dict_get (lit "content") message = Some content ->
  dict_get (lit "content") message' = Some content' ->
  firstn 50 content = firstn 50 content' ->
  LLMClient_chat self (earlier ++ [message])
  = LLMClient_chat self' (earlier' ++ [message'])
  /\ exists answer, LLMClient_chat self (earlier ++ [message]) = Ok answer.
Proof.
  intros Hp Hc Hc' Hstart.
  assert (Hchat : forall s ms m c,
             dict_get (lit "content") m = Some c ->
             LLMClient_chat s (ms ++ [m]) = Ok (LLMClient_call s c)).
  { intros s ms m c Hm. unfold LLMClient_chat.
    destruct (ms ++ [m]) as [|first others] eqn:E; [destruct ms; discriminate|].
    rewrite <- E, last_snoc, Hm. reflexivity. }
  rewrite (Hchat _ _ _ _ Hc), (Hchat _ _ _ _ Hc').
  split; [|eexists; reflexivity].
  f_equal. unfold LLMClient_call. rewrite Hp.
  rewrite !slice_from_start by lia.
  change (Z.to_nat 50) with 50%nat. now rewrite Hstart.
Qed.

Lemma chat_reads_last_message_start_witness :
  provider {| provider := lit "openai"; api_key := None; model := None |}
  = provider {| provider := lit "openai"; api_key := Some (lit "k"); model := None |}
  /\ dict_get (lit "content") [(lit "role", lit "user"); (lit "content", lit "Hello")]
     = Some (lit "Hello")
  /\ dict_get (lit "content") [(lit "content", lit "Hello")] = Some (lit "Hello")
  /\ firstn 50 (lit "Hello") = firstn 50 (lit "Hello")
  /\ (LLMClient_chat {| provider := lit "openai"; api_key := None; model := None |}
        ([[(lit "content", lit "Earlier")]]
         ++ [[(lit "role", lit "user"); (lit "content", lit "Hello")]])
      = LLMClient_chat
          {| provider := lit "openai"; api_key := Some (lit "k"); model := None |}
          ([] ++ [[(lit "content", lit "Hello")]])
      /\ exists answer,
           LLMClient_chat {| provider := lit "openai"; api_key := None; model := None |}
             ([[(lit "content", lit "Earlier")]]
              ++ [[(lit "role", lit "user"); (lit "content", lit "Hello")]])
           = Ok answer).
Proof.
  split; [reflexivity|]. split; [reflexivity|]. split; [reflexivity|].
  split; [reflexivity|].
  apply (chat_reads_last_message_start
           {| provider := lit "openai"; api_key := None; model := None |}
           {| provider := lit "openai"; api_key := Some (lit "k"); model := None |}
           [[(lit "content", lit "Earlier")]] []
           [(lit "role", lit "user"); (lit "content", lit "Hello")]
           [(lit "content", lit "Hello")] (lit "Hello") (lit "Hello"));
    reflexivity.
Defined.

Example chat_without_content :
  LLMClient_chat {| provider := lit "none"; api_key := None; model := None |}
    [[(lit "role", lit "user")]]
  = Raise (OtherException "KeyError")
  /\ LLMClient_chat {| provider := lit "mistral"; api_key := None; model := None |} []
     = Ok (lit "Provider mistral not implemented.").
Proof. split; reflexivity. Qed.

(** ** The evidence section of the prompts *)

Lemma format_passages_length (passages : list passage) :
  (List.length
     (List.concat
        (map (fun p => lit "- " ++ firstn 400 (text p) ++ lit "..." ++ [NL]) passages))
   <= 406 * List.length passages)%nat.
Proof.
  induction passages as [|p rest IH]; [simpl; lia|].
  cbn [map List.concat List.length]. rewrite !length_app.
  pose proof (firstn_le_length 400 (text p)) as H.
  change (List.length (lit "- ")) with 2%nat.
  change (List.length (lit "...")) with 3%nat.
  change (List.length [NL]) with 1%nat. lia.
Qed.

(** The evidence section grows with the number of claims only: for each
    claim it holds the identifier, a heading, and at most five passages of
    at most 400 characters each, that is at most 2042 characters beside
    the identifier. *)
Theorem format_evidence_length (evidence : evidence_dict) :
  (List.length (format_evidence evidence)
   <= list_sum (map (fun item => List.length (fst item) + 2042) evidence))%nat.
Proof.
  unfold format_evidence.
  induction evidence as [|[cid passages] rest IH]; [simpl; lia|].
  cbn [map List.concat list_sum fst snd]. rewrite !length_app.
  pose proof (format_passages_length (firstn 5 passages)) as Hp.
  pose proof (firstn_le_length 5 passages) as H5.
  change (List.length [NL]) with 1%nat.
  change (List.length (lit " Evidence:")) with 10%nat.
  unfold list_sum in *. cbn [fold_right]. lia.
Qed.

(** ** The keys of the evidence *)

Lemma split_once_aux_colon (c : char) (cur s a b : str) :
  split_once_aux [c] cur s = Some (a, b) ->
  exists a', a = rev cur ++ a' /\ s = a' ++ c :: b /\ ~ In c a'.
Proof.
  revert cur; induction s as [|x s IH]; intros cur; cbn [split_once_aux is_prefix];
    [discriminate|].
  rewrite andb_true_r.
  destruct (c =? x)%N eqn:E.
  - apply N.eqb_eq in E. subst x. cbn [List.length skipn]. intros [= <- <-].
    exists []. rewrite app_nil_r. repeat split. tauto.
  - apply N.eqb_neq in E. intros H.
    destruct (IH _ H) as (a' & -> & -> & Hn).
    exists (x :: a'). cbn [rev]. rewrite <- app_assoc. repeat split.
    intros [->|Hin]; tauto.
Qed.

Lemma lstrip_by_incl f (c : char) (s : str) : In c (lstrip_by f s) -> In c s.
Proof.
  destruct (lstrip_by_suffix f s) as (a & Ha & _).
  intros H. rewrite Ha. apply in_or_app. now right.
Qed.

Lemma strip_by_incl f (c : char) (s : str) : In c (strip_by f s) -> In c s.
Proof.
  unfold strip_by, rstrip_by. intros H.
  apply in_rev, lstrip_by_incl in H. apply in_rev in H.
  now apply lstrip_by_incl in H.
Qed.

(** Every key of the mapping [retrieve_evidence] returns is the text of
    some line before its first colon, stripped: it holds no colon and has
    no white space at its ends. *)
Theorem retrieve_evidence_keys_clean (Index : Type)
    (search_index : Index -> str -> Z -> result (list passage))
    (query_text : str) (index : Index) (top_k : Z)
    (evidence : evidence_dict) (key : str) (v : list passage) :
  retrieve_evidence Index search_index query_text index top_k = Ok evidence ->
  dict_get key evidence = Some v ->
  ~ In 58%N key
  /\ (forall c t, key = c :: t -> is_space c = false)
  /\ (forall c t, key = t ++ [c] -> is_space c = false)
  /\ exists line query,
       In line (split [NL] query_text)
       /\ exists before, line = before ++ 58%N :: query /\ key = strip before.
Proof.
  intros Hrun Hget.
  destruct (retrieve_evidence_loop_ok Index search_index index top_k
              (split [NL] query_text) []
              (fun key v =>
                 exists line,
                   In line (split [NL] query_text)
                   /\ written_by Index search_index index top_k line key v))
    as (evidence' & Hrun' & Hall).
  - intros k x H. discriminate.
  - intros line k x Hin Hw. now exists line.
  - unfold retrieve_evidence in Hrun. rewrite Hrun in Hrun'. injection Hrun' as <-.
    destruct (Hall _ _ Hget) as (line & Hin & cid & query & Hs & -> & _).
    apply split_once_aux_colon in Hs as (before & -> & -> & Hno).
    cbn [rev app]. destruct (strip_by_ends is_space before) as [H1 H2].
    split; [|split; [exact H1 | split; [exact H2|]]].
    + intros H. apply Hno. now apply strip_by_incl in H.
    + exists (before ++ 58%N :: query), query. split; [exact Hin|].
      now exists before.
Qed.

Lemma retrieve_evidence_keys_clean_witness :
  retrieve_evidence unit (fun _ query _ => Ok [ {| text := query |} ])
    (lit "  Claim 7 : sea: storm") tt 5
  = Ok [ (lit "Claim 7", [ {| text := lit "sea: storm" |} ]) ]
  /\ dict_get (lit "Claim 7") [ (lit "Claim 7", [ {| text := lit "sea: storm" |} ]) ]
     = Some [ {| text := lit "sea: storm" |} ]
  /\ (~ In 58%N (lit "Claim 7")
      /\ (forall c t, lit "Claim 7" = c :: t -> is_space c = false)
      /\ (forall c t, lit "Claim 7" = t ++ [c] -> is_space c = false)
      /\ exists line query,
           In line (split [NL] (lit "  Claim 7 : sea: storm"))
           /\ exists before,
                line = before ++ 58%N :: query /\ lit "Claim 7" = strip before).
Proof.
  split; [reflexivity|]. split; [reflexivity|].
  apply (retrieve_evidence_keys_clean unit
           (fun _ query _ => Ok [ {| text := query |} ])
           (lit "  Claim 7 : sea: storm") tt 5
           [ (lit "Claim 7", [ {| text := lit "sea: storm" |} ]) ]
           (lit "Claim 7") [ {| text := lit "sea: storm" |} ]);
    reflexivity.
Defined.

(** ** [append_result] *)

Lemma append_results_existing (to_csv : bool -> data_frame -> str) (content : str)
    (results : list (str * Z * str)) :
  append_results to_csv (Some content) results
  = Some (content
          ++ List.concat (map (fun r => to_csv false (result_frame r)) results)).
Proof.
  revert content; induction results as [|r rest IH]; intros content.
  - simpl. now rewrite app_nil_r.
  - unfold append_results in *. cbn [fold_left append_result map List.concat].
    rewrite IH, <- app_assoc. reflexivity.
Qed.

(** Results appended one at a time to a file that is there add, at the
    end of the text the file has and whatever that text ends with, the
    text of each result without a header, in order: what the file held
    stays at its start.  Appended where no file is, the first result is
    written with the header and the others follow without one.  No
    result, no file. *)
Theorem append_results_text (to_csv : bool -> data_frame -> str) :
  (forall content results,
      append_results to_csv (Some content) results
      = Some (content
              ++ List.concat (map (fun r => to_csv false (result_frame r)) results)))
  /\ (forall r rest,
         append_results to_csv None (r :: rest)
         = Some (to_csv true (result_frame r)
                 ++ List.concat (map (fun r => to_csv false (result_frame r)) rest)))
  /\ append_results to_csv None [] = None.
Proof.
  split; [intros content results; apply append_results_existing|].
  split; [|reflexivity].
  intros r rest. unfold append_results. cbn [fold_left append_result].
  fold (result_frame r).
  fold (append_results to_csv (Some (to_csv true (result_frame r))) rest).
  apply append_results_existing.
Qed.

(** A file whose last line has no line end: the text of the record comes
    right after that line, with nothing in between. *)
Example append_result_after_open_line (to_csv : bool -> data_frame -> str) :
  append_result to_csv (Some (lit "story_id,prediction,rationale"))
    (lit "7") 1 (lit "ok")
  = Some (lit "story_id,prediction,rationale"
          ++ to_csv false (result_frame (lit "7", 1%Z, lit "ok"))).
Proof. reflexivity. Qed.
